(** * mintSources: repository descriptors in one-line and DEB822 form

    A shallow embedding of [usr/lib/linuxmint/mintSources/RepositoryInformation.py]
    and the properties of its parsers, formatters and converters.

    Conventions of the embedding.
    - A Python [str] is a [string] whose characters are code points below 256.
    - A Python call either returns or raises: [result A] is [Return a] or
      [Raise e], and code is written in the corresponding monad.
    - Python's [None] is [None] of an [option]; a method that may return [None]
      has type [result (option A)].
    - Fields are dynamically typed in the source.  The four sequence fields
      hold what [_get_values] can produce ([list[str] | None]); [enabled] and
      the option fields hold a [pyval] or [None]. *)

From Stdlib Require Import Ascii String List ZArith Lia Bool.
From stdpp Require Import base option list strings gmap.

Local Open Scope stdpp_scope.

(** ** Exceptions and results *)

Inductive exn : Type :=
  | AttributeError
  | IndexError
  | TypeError
  | ValueError.

Inductive result (A : Type) : Type :=
  | Return (a : A)
  | Raise (e : exn).

Arguments Return {A} a.
Arguments Raise {A} e.

Global Instance result_ret : MRet result := λ A a, Return a.

Global Instance result_bind : MBind result := λ A B k r,
  match r with
  | Return a => k a
  | Raise e => Raise e
  end.

(** ** Python values stored in dynamically typed fields *)

Inductive pyval : Type :=
  | PStr (s : string)
  | PList (l : list string)
  | PBool (b : bool)
  | PInt (n : Z).

Global Instance pyval_eq_dec : EqDecision pyval.
Proof. solve_decision. Defined.

(** Truth value of an object; [None] is false. *)
Definition truthy (v : option pyval) : bool :=
  match v with
  | None => false
  | Some (PStr s) => negb (bool_decide (s = ""))
  | Some (PList l) => negb (bool_decide (l = []))
  | Some (PBool b) => b
  | Some (PInt n) => negb (n =? 0)%Z
  end.

Definition is_str (v : pyval) : bool :=
  match v with PStr _ => true | _ => false end.

(** ** String primitives of the Python runtime *)

Module Py.

(** [str.isspace] of one character, for code points below 256. *)
Definition is_space (c : ascii) : bool :=
  let n := nat_of_ascii c in
  ((9 <=? n) && (n <=? 13) || (28 <=? n) && (n <=? 32)
   || (n =? 133) || (n =? 160))%nat.

Fixpoint all_space (s : string) : bool :=
  match s with
  | EmptyString => true
  | String c r => is_space c && all_space r
  end.

(** [s.isspace()]: at least one character and all of them whitespace. *)
Definition isspace (s : string) : bool :=
  match s with
  | EmptyString => false
  | _ => all_space s
  end.

(** [s.split()]: maximal runs of characters that are not whitespace.
    [cur] is the run being read. *)
Fixpoint split_go (cur : string) (s : string) : list string :=
  match s with
  | EmptyString => if bool_decide (cur = "") then [] else [cur]
  | String c r =>
      if is_space c
      then (if bool_decide (cur = "") then split_go "" r
            else cur :: split_go "" r)
      else split_go (cur +:+ String c "") r
  end.

Definition split (s : string) : list string := split_go "" s.

(** [s.split(sep)] for a separator of one character: never empty. *)
Fixpoint split_on_go (sep : ascii) (cur : string) (s : string) : list string :=
  match s with
  | EmptyString => [cur]
  | String c r =>
      if Ascii.eqb c sep then cur :: split_on_go sep "" r
      else split_on_go sep (cur +:+ String c "") r
  end.

Definition split_on (sep : ascii) (s : string) : list string :=
  split_on_go sep "" s.

(** [sep.join(l)]. *)
Fixpoint join (sep : string) (l : list string) : string :=
  match l with
  | [] => ""
  | [x] => x
  | x :: r => x +:+ sep +:+ join sep r
  end.

Fixpoint lstrip (s : string) : string :=
  match s with
  | EmptyString => ""
  | String c r => if is_space c then lstrip r else s
  end.

Fixpoint rstrip (s : string) : string :=
  match s with
  | EmptyString => ""
  | String c r =>
      match rstrip r with
      | EmptyString => if is_space c then "" else String c ""
      | r' => String c r'
      end
  end.

(** [s.strip()]. *)
Definition strip (s : string) : string := rstrip (lstrip s).

(** A string that is empty or starts with a character that is no
    whitespace: [lstrip] leaves it as it is. *)
Definition no_leading_space (s : string) : bool :=
  match s with
  | EmptyString => true
  | String c _ => negb (is_space c)
  end.

(** [s.startswith(c)] for one character. *)
Definition startswith (c : ascii) (s : string) : bool :=
  match s with
  | String c' _ => Ascii.eqb c' c
  | EmptyString => false
  end.

(** [s[1:]]. *)
Definition tail (s : string) : string :=
  match s with
  | String _ r => r
  | EmptyString => ""
  end.

End Py.

(** ** The regular expression [\[.+]]

    A match starts at a ['['], takes one or more characters other than a
    newline, as many as possible, and ends at a [']'].  So from a ['['] the
    match runs to the last [']'] of the same line that leaves at least one
    character in between. *)

Module OptionsRegex.

Definition newline : ascii := ascii_of_nat 10.

(** The characters a run of [.] can cover: up to the first newline. *)
Fixpoint dot_run (s : string) : string :=
  match s with
  | EmptyString => ""
  | String c r => if Ascii.eqb c newline then "" else String c (dot_run r)
  end.

(** Position of the last [']'] of [s], positions counted from [i]. *)
Fixpoint last_close (i : nat) (s : string) : option nat :=
  match s with
  | EmptyString => None
  | String c r =>
      match last_close (S i) r with
      | Some j => Some j
      | None => if Ascii.eqb c "]" then Some i else None
      end
  end.

(** A match that starts at the first character of [s]: the text between
    the brackets, that is [group(0)[1:-1]]. *)
Definition match_at (s : string) : option string :=
  match s with
  | String c t =>
      if Ascii.eqb c "["
      then match dot_run t with
           | String _ run' =>
               match last_close 1 run' with
               | Some m => Some (String.substring 0 m (dot_run t))
               | None => None
               end
           | EmptyString => None
           end
      else None
  | EmptyString => None
  end.

(** [options_regex.search(s)], reduced to the inner text of the match. *)
Fixpoint search (s : string) : option string :=
  match match_at s with
  | Some inner => Some inner
  | None =>
      match s with
      | String _ r => search r
      | EmptyString => None
      end
  end.

(** [options_regex.sub('', s)]: every match, left to right and without
    overlap, is removed.  [skip] counts the characters of the current match
    that are still to be dropped. *)
Fixpoint sub_go (skip : nat) (s : string) : string :=
  match s with
  | EmptyString => ""
  | String c r =>
      match skip with
      | S k => sub_go k r
      | O =>
          match match_at s with
          | Some inner => sub_go (S (String.length inner)) r
          | None => String c (sub_go 0 r)
          end
      end
  end.

Definition sub (s : string) : string := sub_go 0 s.

End OptionsRegex.

(** ** The descriptors *)

(** [_BaseRepositoryInformation]: the fields both forms share, in the order
    [__init__] assigns them. *)
Record BaseRepositoryInformation : Type := mkBase {
  components : option (list string);
  enabled : option pyval;
  architectures : option pyval;
  languages : option pyval;
  targets : option pyval;
  pdiffs : option pyval;
  by_hash : option pyval;
  allow_insecure : option pyval;
  allow_weak : option pyval;
  allow_downgrade_to_insecure : option pyval;
  trusted : option pyval;
  signed_by : option pyval;
  check_valid_until : option pyval;
  valid_until_min : option pyval;
  valid_until_max : option pyval;
  check_date : option pyval;
  date_max_future : option pyval;
  inrelease_path : option pyval
}.

Record Deb822RepositoryInformation : Type := mkDeb822 {
  repo_types : option (list string);
  uris : option (list string);
  suites : option (list string);
  deb822_base :> BaseRepositoryInformation
}.

Record LineRepositoryInformation : Type := mkLine {
  repo_type : string;
  uri : string;
  suite : string;
  line_base :> BaseRepositoryInformation
}.

Global Instance base_eq_dec : EqDecision BaseRepositoryInformation.
Proof. solve_decision. Defined.
Global Instance deb822_eq_dec : EqDecision Deb822RepositoryInformation.
Proof. solve_decision. Defined.
Global Instance line_eq_dec : EqDecision LineRepositoryInformation.
Proof. solve_decision. Defined.

(** [is_enabled]: [True] when [enabled] is [None], otherwise the stored value. *)
Definition is_enabled (b : BaseRepositoryInformation) : pyval :=
  match enabled b with
  | None => PBool true
  | Some v => v
  end.

(** ** The one-line form: parsing *)

Section LineParser.

(** [urllib.parse.urlparse] belongs to the Python library.  All the parser
    needs of it is whether it raises [ValueError] on a token. *)
Variable urlparse_raises : string → bool.

(** The dictionary comprehension
    [{val.split('=')[0]: val.split('=')[1].split(',') for val in options}]:
    a later key replaces an earlier one, and a token without ['='] makes
    the index [1] fail. *)
Fixpoint options_dict (acc : gmap string (list string)) (tokens : list string)
    : result (gmap string (list string)) :=
  match tokens with
  | [] => Return acc
  | val :: rest =>
      match Py.split_on "=" val with
      | k :: v :: _ => options_dict (<[k := Py.split_on "," v]> acc) rest
      | _ => Raise IndexError
      end
  end.

(** [options.get(key)], where [options] is still [None] when the line had
    no bracketed block. *)
Definition options_get (options : option (gmap string (list string)))
    (key : string) : result (option pyval) :=
  match options with
  | None => Raise AttributeError
  | Some d => Return (PList <$> d !! key)
  end.

Definition from_line (line : string) : result (option LineRepositoryInformation) :=
  '(line, options) ←
    match OptionsRegex.search line with
    | Some inner =>
        d ← options_dict ∅ (Py.split inner);
        Return (OptionsRegex.sub line, Some d)
    | None => Return (line, None)
    end;
  let '(line, is_on) :=
    if Py.startswith "#" line then (Py.tail line, false) else (line, true) in
  let parts := filter (λ p, p ≠ "") (Py.split line) in
  match parts with
  | p0 :: p1 :: p2 :: p3 :: rest =>
      if negb (bool_decide (p0 ∈ ["deb"; "deb-src"])) then Return None
      else if urlparse_raises p1 then Return None
      else
        arch ← options_get options "arch";
        lang ← options_get options "lang";
        target ← options_get options "target";
        o_pdiffs ← options_get options "pdiffs";
        o_by_hash ← options_get options "by-hash";
        o_allow_insecure ← options_get options "allow-insecure";
        o_allow_weak ← options_get options "allow-weak";
        o_allow_downgrade ← options_get options "allow-downgrade-to-insecure";
        o_trusted ← options_get options "trusted";
        o_signed_by ← options_get options "signed-by";
        o_check_valid_until ← options_get options "check-valid-until";
        o_valid_until_min ← options_get options "valid-until-min";
        o_valid_until_max ← options_get options "valid-until-max";
        o_check_date ← options_get options "check-date";
        o_date_max_future ← options_get options "date-max-future";
        Return (Some (mkLine p0 p1 p2
          (mkBase (Some (p3 :: rest)) (Some (PBool is_on))
             arch lang target o_pdiffs o_by_hash o_allow_insecure o_allow_weak
             o_allow_downgrade o_trusted o_signed_by o_check_valid_until
             o_valid_until_min o_valid_until_max o_check_date
             o_date_max_future None)))
  | _ => Return None  (* len(parts) < 4 *)
  end.

(** [from_lists]: [repositories] is the list built so far. *)
Fixpoint from_lists_go (repositories : list LineRepositoryInformation)
    (value : list string) : result (list LineRepositoryInformation) :=
  match value with
  | [] => Return repositories
  | line :: rest =>
      if Py.isspace line then from_lists_go repositories rest
      else
        repository ← from_line line;
        match repository with
        | None => from_lists_go repositories rest
        | Some r => from_lists_go (repositories ++ [r]) rest
        end
  end.

Definition from_lists (value : list string)
    : result (list LineRepositoryInformation) :=
  from_lists_go [] value.

End LineParser.

(** ** The one-line form: formatting *)

Definition _name_map : gmap string string :=
  list_to_map
    [("arch", "architectures"); ("architectures", "arch");
     ("lang", "languages"); ("languages", "lang");
     ("target", "targets"); ("targets", "target")].

(** [self.__dict__.items()] of a line descriptor: the attributes in the
    order the two [__init__] methods assign them. *)
Definition instance_dict (self : LineRepositoryInformation)
    : list (string * option pyval) :=
  [("repo_type", Some (PStr (repo_type self)));
   ("uri", Some (PStr (uri self)));
   ("suite", Some (PStr (suite self)));
   ("components", PList <$> components self);
   ("enabled", enabled self);
   ("architectures", architectures self);
   ("languages", languages self);
   ("targets", targets self);
   ("pdiffs", pdiffs self);
   ("by_hash", by_hash self);
   ("allow_insecure", allow_insecure self);
   ("allow_weak", allow_weak self);
   ("allow_downgrade_to_insecure", allow_downgrade_to_insecure self);
   ("trusted", trusted self);
   ("signed_by", signed_by self);
   ("check_valid_until", check_valid_until self);
   ("valid_until_min", valid_until_min self);
   ("valid_until_max", valid_until_max self);
   ("check_date", check_date self);
   ("date_max_future", date_max_future self);
   ("inrelease_path", inrelease_path self)].

Definition not_an_option : list string :=
  ["repo_type"; "uri"; "suite"; "components"; "enabled"].

(** [{k: v for k, v in items if k not in {...} and v is not None}]. *)
Definition set_options (items : list (string * option pyval))
    : list (string * pyval) :=
  omap (λ '(k, v), if bool_decide (k ∉ not_an_option)
                   then (λ x, (k, x)) <$> v else None) items.

(** The name an option is written under.  The source then evaluates
    [name.replace('_', '-')] and drops its result: the name stays as it is. *)
Definition remap_name (name : string) : string :=
  match _name_map !! name with
  | Some mapped => mapped
  | None => name
  end.

(** [value if not isinstance(value, list) else ','.join(value)]. *)
Definition stringified_value (value : pyval) : pyval :=
  match value with
  | PList l => PStr (Py.join "," l)
  | v => v
  end.

(** The loop over [options.items()]; concatenating a value that is not a
    [str] is a [TypeError]. *)
Fixpoint format_loop (option_string : string) (options : list (string * pyval))
    : result string :=
  match options with
  | [] => Return option_string
  | (name, value) :: rest =>
      match stringified_value value with
      | PStr sv =>
          format_loop (option_string +:+ remap_name name +:+ "=" +:+ sv +:+ " ") rest
      | _ => Raise TypeError
      end
  end.

Definition _format_options (self : LineRepositoryInformation) : result string :=
  let options := set_options (instance_dict self) in
  if (length options <=? 0)%nat then Return ""
  else
    option_string ← format_loop "" options;
    Return (" [" +:+ Py.strip option_string +:+ "] ").

Definition to_line (self : LineRepositoryInformation) : result string :=
  joined_components ←
    match components self with
    | Some l => Return (Py.join " " l)
    | None => Raise TypeError
    end;
  let disabler := if negb (truthy (enabled self)) then "# " else "" in
  options ← _format_options self;
  Return (disabler +:+ repo_type self +:+ options +:+ uri self +:+ " "
          +:+ suite self +:+ " " +:+ joined_components).

(** ** The DEB822 form *)

Section Deb822.

(** A [deb822.Deb822] paragraph holds values under field names; the
    container itself and [iter_paragraphs] belong to python-debian. *)
Variable iter_paragraphs : list string → list (gmap string pyval).

Definition _get_values (container : gmap string pyval) (key : string)
    : result (option (list string)) :=
  match container !! key with
  | None => Return None
  | Some (PStr something) => Return (Some (Py.split something))
  | Some _ => Raise TypeError
  end.

Definition from_deb822 (value : gmap string pyval)
    : result Deb822RepositoryInformation :=
  types ← _get_values value "Types";
  the_uris ← _get_values value "URIs";
  the_suites ← _get_values value "Suites";
  the_components ← _get_values value "Components";
  archs ← _get_values value "Architectures";
  langs ← _get_values value "Languages";
  the_targets ← _get_values value "Targets";
  Return (mkDeb822 types the_uris the_suites
    (mkBase the_components (value !! "Enabled")
       (PList <$> archs) (PList <$> langs) (PList <$> the_targets)
       (value !! "PDiffs") (value !! "By-Hash") (value !! "Allow-Insecure")
       (value !! "Allow-Weak") (value !! "Allow-Downgrade-To-Insecure")
       (value !! "Trusted") (value !! "Signed-By")
       (value !! "Check-Valid-Until") (value !! "Valid-Until-Min")
       (value !! "Valid-Until-Max") (value !! "Check-Date")
       (value !! "Date-Max-Future") None)).

(** [from_sources].  The source tests [repository is None] after the call;
    [from_deb822] has no path that returns [None], so every paragraph it
    returns from is appended. *)
Fixpoint from_sources_go (repositories : list Deb822RepositoryInformation)
    (paragraphs : list (gmap string pyval))
    : result (list Deb822RepositoryInformation) :=
  match paragraphs with
  | [] => Return repositories
  | paragraph :: rest =>
      repository ← from_deb822 paragraph;
      from_sources_go (repositories ++ [repository]) rest
  end.

Definition from_sources (value : list string)
    : result (list Deb822RepositoryInformation) :=
  from_sources_go [] (iter_paragraphs value).

End Deb822.

(** [' '.join(x)] of a sequence field, which may hold [None]. *)
Definition join_field (x : option (list string)) : result string :=
  match x with
  | Some l => Return (Py.join " " l)
  | None => Raise TypeError
  end.

Section Deb822Writer.

(** [container[key] = value] on a [deb822.Deb822] goes through the
    [__setitem__] of python-debian, which validates the value and raises
    [ValueError] on the ones it refuses (line breaks that would split the
    field).  Which strings it refuses is the library's business. *)
Variable setitem_raises : string → string → bool.

Definition setitem (container : gmap string pyval) (key value : string)
    : result (gmap string pyval) :=
  if setitem_raises key value then Raise ValueError
  else Return (<[key := PStr value]> container).

Definition write_if_present (container : gmap string pyval) (key : string)
    (val : option pyval) : result (gmap string pyval) :=
  match val with
  | None => Return container
  | Some (PStr s) => setitem container key s
  | Some (PList l) => setitem container key (Py.join " " l)
  | Some (PBool b) => setitem container key (if b then "yes" else "no")
  | Some (PInt _) => Raise TypeError
  end.

Definition to_deb822 (self : Deb822RepositoryInformation)
    : result (gmap string pyval) :=
  let value : gmap string pyval := ∅ in
  v ← join_field (repo_types self); value ← setitem value "Types" v;
  v ← join_field (uris self); value ← setitem value "URIs" v;
  v ← join_field (suites self); value ← setitem value "Suites" v;
  v ← join_field (components self); value ← setitem value "Components" v;
  value ← write_if_present value "Enabled" (enabled self);
  value ← write_if_present value "Architectures" (architectures self);
  value ← write_if_present value "Targets" (targets self);
  value ← write_if_present value "PDiffs" (pdiffs self);
  value ← write_if_present value "By-Hash" (by_hash self);
  value ← write_if_present value "Allow-Insecure" (allow_insecure self);
  value ← write_if_present value "Allow-Weak" (allow_weak self);
  value ← write_if_present value "Allow-Downgrade-To-Insecure"
            (allow_downgrade_to_insecure self);
  value ← write_if_present value "Trusted" (trusted self);
  value ← write_if_present value "Signed-By" (signed_by self);
  value ← write_if_present value "Check-Valid-Until" (check_valid_until self);
  value ← write_if_present value "Valid-Until-Min" (valid_until_min self);
  value ← write_if_present value "Valid-Until-Max" (valid_until_max self);
  value ← write_if_present value "Check-Date" (check_date self);
  value ← write_if_present value "Date-Max-Future" (date_max_future self);
  Return value.

End Deb822Writer.

(** A [__setitem__] that refuses nothing. *)
Definition accept_all : string → string → bool := λ _ _, false.

(** ** Converting a DEB822 descriptor to line descriptors *)

(** A [for] loop whose body yields descriptors; iterating over [None] is a
    [TypeError].  The generator is read to its end. *)
Fixpoint yield_each {A B : Type} (body : A → result (list B)) (l : list A)
    : result (list B) :=
  match l with
  | [] => Return []
  | x :: rest =>
      first ← body x;
      others ← yield_each body rest;
      Return (first ++ others)
  end.

Definition for_in {A B : Type} (seq : option (list A))
    (body : A → result (list B)) : result (list B) :=
  match seq with
  | None => Raise TypeError
  | Some l => yield_each body l
  end.

(** The descriptor one iteration yields: twenty arguments are passed, so
    [inrelease_path] takes its default [None]. *)
Definition line_of (value : Deb822RepositoryInformation)
    (the_type the_uri the_suite : string) : LineRepositoryInformation :=
  mkLine the_type the_uri the_suite
    (mkBase (components value) (enabled value) (architectures value)
       (languages value) (targets value) (pdiffs value) (by_hash value)
       (allow_insecure value) (allow_weak value)
       (allow_downgrade_to_insecure value) (trusted value) (signed_by value)
       (check_valid_until value) (valid_until_min value)
       (valid_until_max value) (check_date value) (date_max_future value)
       None).

Definition from_deb822_information (value : Deb822RepositoryInformation)
    : result (list LineRepositoryInformation) :=
  for_in (repo_types value) (λ the_type,
    for_in (uris value) (λ the_uri,
      for_in (suites value) (λ the_suite,
        Return [line_of value the_type the_uri the_suite]))).

(** ** Sample entries *)

Definition no_options (the_components : option (list string))
    (the_enabled : option pyval) : BaseRepositoryInformation :=
  mkBase the_components the_enabled None None None None None None None None
    None None None None None None None None.

Definition plain_entry : string := "deb http://example.com/debian stable main".

Definition options_entry : string :=
  "deb [arch=amd64,i386 trusted=yes] http://example.com/debian stable main".

(** ** Sample descriptors and the notions the statements use *)

(** What one line contributes to the batch when nothing is raised. *)
Definition parsed (urlparse_raises : string → bool) (line : string)
    : option LineRepositoryInformation :=
  if Py.isspace line then None
  else match from_line urlparse_raises line with
       | Return (Some d) => Some d
       | _ => None
       end.

(** The descriptor of a disabled-looking but unset entry: [enabled] is
    [None], one option is set. *)
Definition unset_enabled_entry : LineRepositoryInformation :=
  mkLine "deb" "http://example.com/debian" "stable"
    (mkBase (Some ["main"]) None (Some (PList ["amd64"])) None None None None
       None None None None None None None None None None None).

(** A descriptor with the option [by_hash] set, as the parser builds it
    from [by-hash=yes]. *)
Definition by_hash_entry : LineRepositoryInformation :=
  mkLine "deb" "http://example.com/debian" "stable"
    (mkBase (Some ["main"]) (Some (PBool true)) None None None None
       (Some (PList ["yes"])) None None None None None None None None None
       None None).

(** A paragraph with no [Components] field. *)
Definition no_components_paragraph : gmap string pyval :=
  list_to_map [("Types", PStr "deb"); ("URIs", PStr "http://example.com/debian");
               ("Suites", PStr "stable")].

Definition no_components_descriptor : Deb822RepositoryInformation :=
  mkDeb822 (Some ["deb"]) (Some ["http://example.com/debian"]) (Some ["stable"])
    (no_options None None).

(** A descriptor with [languages] set. *)
Definition languages_descriptor : Deb822RepositoryInformation :=
  mkDeb822 (Some ["deb"]) (Some ["http://example.com/debian"]) (Some ["stable"])
    (mkBase (Some ["main"]) None None (Some (PList ["en"; "de"])) None None None
       None None None None None None None None None None None).

(** The fields [from_deb822] reads through [_get_values]. *)
Definition split_fields : list string :=
  ["Types"; "URIs"; "Suites"; "Components"; "Architectures"; "Languages";
   "Targets"].

(** The attribute of the descriptor a field of that list is stored in. *)
Definition field_of (key : string) (d : Deb822RepositoryInformation)
    : option pyval :=
  if bool_decide (key = "Types") then PList <$> repo_types d
  else if bool_decide (key = "URIs") then PList <$> uris d
  else if bool_decide (key = "Suites") then PList <$> suites d
  else if bool_decide (key = "Components") then PList <$> components d
  else if bool_decide (key = "Architectures") then architectures d
  else if bool_decide (key = "Languages") then languages d
  else if bool_decide (key = "Targets") then targets d
  else None.

(** A paragraph whose [URIs] field holds a number. *)
Definition wrong_type_paragraph : gmap string pyval :=
  <["URIs" := PInt 3]> no_components_paragraph.

(** The descriptors the three nested loops yield. *)
Definition expansion (value : Deb822RepositoryInformation)
    (ts us ss : list string) : list LineRepositoryInformation :=
  ts ≫= λ t, us ≫= λ u, ss ≫= λ s, [line_of value t u s].

(** What a line descriptor takes over from the DEB822 descriptor: the
    components, [enabled] and the options that are passed on. *)
Definition carries (value : BaseRepositoryInformation)
    (d : BaseRepositoryInformation) : Prop :=
  components d = components value
  ∧ enabled d = enabled value
  ∧ architectures d = architectures value
  ∧ languages d = languages value
  ∧ targets d = targets value
  ∧ pdiffs d = pdiffs value
  ∧ by_hash d = by_hash value
  ∧ allow_insecure d = allow_insecure value
  ∧ allow_weak d = allow_weak value
  ∧ allow_downgrade_to_insecure d = allow_downgrade_to_insecure value
  ∧ trusted d = trusted value
  ∧ signed_by d = signed_by value
  ∧ check_valid_until d = check_valid_until value
  ∧ valid_until_min d = valid_until_min value
  ∧ valid_until_max d = valid_until_max value
  ∧ check_date d = check_date value
  ∧ date_max_future d = date_max_future value.

(** A DEB822 descriptor with two types and two suites. *)
Definition two_by_two : Deb822RepositoryInformation :=
  mkDeb822 (Some ["deb"; "deb-src"]) (Some ["http://example.com/debian"])
    (Some ["stable"; "testing"]) (no_options (Some ["main"]) None).

(** A DEB822 descriptor with [inrelease_path] set. *)
Definition inrelease_descriptor : Deb822RepositoryInformation :=
  mkDeb822 (Some ["deb"]) (Some ["http://example.com/debian"]) (Some ["stable"])
    (mkBase (Some ["main"]) None None None None None None None None None None
       None None None None None None (Some (PStr "dists/stable/InRelease"))).

(** A value the loop can write: a string or a list of strings. *)
Definition is_text (value : pyval) : bool :=
  match value with
  | PStr _ | PList _ => true
  | PBool _ | PInt _ => false
  end.

(** The text such a value is written as: the string itself, or the elements
    of the list with commas in between. *)
Definition option_text (value : pyval) : option string :=
  match value with
  | PStr s => Some s
  | PList l => Some (Py.join "," l)
  | PBool _ | PInt _ => None
  end.

Definition options_are_text (options : list (string * pyval)) : bool :=
  forallb (λ kv, is_text kv.2) options.

Definition names_have_no_leading_space (options : list (string * pyval)) : bool :=
  forallb (λ kv, Py.no_leading_space (remap_name kv.1)
                 && negb (bool_decide (remap_name kv.1 = ""))) options.

(** The attributes before [inrelease_path], which [__init__] assigns last. *)
Definition earlier_attributes (self : LineRepositoryInformation)
    : list (string * option pyval) :=
  removelast (instance_dict self).

(** A line descriptor whose [inrelease_path] ends in two spaces. *)
Definition inrelease_spaces_entry : LineRepositoryInformation :=
  mkLine "deb" "http://example.com/debian" "stable"
    (mkBase (Some ["main"]) (Some (PBool true)) None None None None None None
       None None None None None None None None None
       (Some (PStr "dists/x  "))).

(** A line descriptor with [inrelease_path] set and a boolean in [pdiffs]. *)
Definition inrelease_pdiffs_entry : LineRepositoryInformation :=
  mkLine "deb" "http://example.com/debian" "stable"
    (mkBase (Some ["main"]) (Some (PBool true)) None None None
       (Some (PBool true)) None None None None None None None None None None
       None (Some (PStr "dists/x"))).

(** A line descriptor with an architecture list and [inrelease_path] set. *)
Definition inrelease_entry : LineRepositoryInformation :=
  mkLine "deb" "http://example.com/debian" "stable"
    (mkBase (Some ["main"]) (Some (PBool true)) (Some (PList ["amd64"])) None
       None None None None None None None None None None None None None
       (Some (PStr "dists/stable/InRelease"))).

(** ** The conversion of a line descriptor to a DEB822 descriptor *)

(** [from_line_information]: the three single values become lists of one
    element; twenty arguments are passed, so [inrelease_path] is [None]. *)
Definition from_line_information (value : LineRepositoryInformation)
    : Deb822RepositoryInformation :=
  mkDeb822 (Some [repo_type value]) (Some [uri value]) (Some [suite value])
    (mkBase (components value) (enabled value) (architectures value)
       (languages value) (targets value) (pdiffs value) (by_hash value)
       (allow_insecure value) (allow_weak value)
       (allow_downgrade_to_insecure value) (trusted value) (signed_by value)
       (check_valid_until value) (valid_until_min value)
       (valid_until_max value) (check_date value) (date_max_future value)
       None).

(** ** Notions for the further properties *)

(** [c in s]. *)
Fixpoint contains (c : ascii) (s : string) : bool :=
  match s with
  | EmptyString => false
  | String c' r => Ascii.eqb c' c || contains c r
  end.

Fixpoint no_space (s : string) : bool :=
  match s with
  | EmptyString => true
  | String c r => negb (Py.is_space c) && no_space r
  end.

(** A token as [split()] returns them: not empty and free of whitespace. *)
Definition is_token (s : string) : bool :=
  negb (bool_decide (s = EmptyString)) && no_space s.

Definition all_tokens (l : list string) : bool := forallb is_token l.

(** A base record with [inrelease_path] reset, as the converters leave it. *)
Definition without_inrelease_path (b : BaseRepositoryInformation)
    : BaseRepositoryInformation :=
  mkBase (components b) (enabled b) (architectures b) (languages b)
    (targets b) (pdiffs b) (by_hash b) (allow_insecure b) (allow_weak b)
    (allow_downgrade_to_insecure b) (trusted b) (signed_by b)
    (check_valid_until b) (valid_until_min b) (valid_until_max b)
    (check_date b) (date_max_future b) None.

(** The same with [languages] reset too: what a DEB822 paragraph written by
    [to_deb822] gives back. *)
Definition without_languages (b : BaseRepositoryInformation)
    : BaseRepositoryInformation :=
  mkBase (components b) (enabled b) (architectures b) None
    (targets b) (pdiffs b) (by_hash b) (allow_insecure b) (allow_weak b)
    (allow_downgrade_to_insecure b) (trusted b) (signed_by b)
    (check_valid_until b) (valid_until_min b) (valid_until_max b)
    (check_date b) (date_max_future b) None.

(** The field names [to_deb822] can write. *)
Definition written_fields : list string :=
  ["Types"; "URIs"; "Suites"; "Components"; "Enabled"; "Architectures";
   "Targets"; "PDiffs"; "By-Hash"; "Allow-Insecure"; "Allow-Weak";
   "Allow-Downgrade-To-Insecure"; "Trusted"; "Signed-By"; "Check-Valid-Until";
   "Valid-Until-Min"; "Valid-Until-Max"; "Check-Date"; "Date-Max-Future"].

(** The optional attributes [to_deb822] passes to [write_if_present]. *)
Definition written_optionals (self : Deb822RepositoryInformation)
    : list (option pyval) :=
  [enabled self; architectures self; targets self; pdiffs self; by_hash self;
   allow_insecure self; allow_weak self; allow_downgrade_to_insecure self;
   trusted self; signed_by self; check_valid_until self; valid_until_min self;
   valid_until_max self; check_date self; date_max_future self].

Definition is_int (v : option pyval) : bool :=
  match v with Some (PInt _) => true | _ => false end.

(** What [_get_values] answers on a paragraph whose values are strings. *)
Definition field_tokens (container : gmap string pyval) (key : string)
    : option (list string) :=
  match container !! key with
  | Some (PStr s) => Some (Py.split s)
  | _ => None
  end.

(** A paragraph as the DEB822 reader hands it over: every value a string. *)
Definition all_strings (container : gmap string pyval) : Prop :=
  ∀ key v, container !! key = Some v → is_str v = true.

Definition string_or_absent (v : option pyval) : bool :=
  match v with
  | None | Some (PStr _) => true
  | _ => false
  end.

Definition token_list_or_absent (v : option pyval) : bool :=
  match v with
  | None => true
  | Some (PList l) => all_tokens l
  | _ => false
  end.

Definition token_list (x : option (list string)) : bool :=
  match x with
  | Some l => all_tokens l
  | None => false
  end.

(** A DEB822 descriptor as [from_deb822] builds it from strings, with the four
    required fields: token lists in the sequence fields, strings elsewhere. *)
Definition stanza_well_formed (d : Deb822RepositoryInformation) : bool :=
  token_list (repo_types d) && token_list (uris d) && token_list (suites d)
  && token_list (components d)
  && string_or_absent (enabled d)
  && token_list_or_absent (architectures d)
  && token_list_or_absent (targets d)
  && forallb string_or_absent
       [pdiffs d; by_hash d; allow_insecure d; allow_weak d;
        allow_downgrade_to_insecure d; trusted d; signed_by d;
        check_valid_until d; valid_until_min d; valid_until_max d;
        check_date d; date_max_future d].

(** The string [write_if_present] stores for a value. *)
Definition written_value (val : option pyval) : option pyval :=
  match val with
  | Some (PStr s) => Some (PStr s)
  | Some (PList l) => Some (PStr (Py.join " " l))
  | Some (PBool b) => Some (PStr (if b then "yes" else "no"))
  | _ => None
  end.

(** A container after [container[key] = x], or unchanged for no [x]. *)
Definition store (key : string) (x : option pyval)
    (container : gmap string pyval) : gmap string pyval :=
  match x with
  | Some v => <[key := v]> container
  | None => container
  end.

(** Whether the container takes what [write_if_present] stores for a
    value, and what [to_deb822] stores for a sequence field. *)
Definition accepts (setitem_raises : string → string → bool) (key : string)
    (val : option pyval) : bool :=
  match written_value val with
  | Some (PStr s) => negb (setitem_raises key s)
  | _ => true
  end.

Definition accepts_joined (setitem_raises : string → string → bool)
    (key : string) (x : option (list string)) : bool :=
  match x with
  | Some l => negb (setitem_raises key (Py.join " " l))
  | None => true
  end.

(** The optional fields [to_deb822] writes, with their names, in order. *)
Definition written_pairs (self : Deb822RepositoryInformation)
    : list (string * option pyval) :=
  [("Enabled", enabled self); ("Architectures", architectures self);
   ("Targets", targets self); ("PDiffs", pdiffs self);
   ("By-Hash", by_hash self); ("Allow-Insecure", allow_insecure self);
   ("Allow-Weak", allow_weak self);
   ("Allow-Downgrade-To-Insecure", allow_downgrade_to_insecure self);
   ("Trusted", trusted self); ("Signed-By", signed_by self);
   ("Check-Valid-Until", check_valid_until self);
   ("Valid-Until-Min", valid_until_min self);
   ("Valid-Until-Max", valid_until_max self);
   ("Check-Date", check_date self);
   ("Date-Max-Future", date_max_future self)].

(** The container accepts every string [to_deb822] would store. *)
Definition writes_accepted (setitem_raises : string → string → bool)
    (self : Deb822RepositoryInformation) : bool :=
  accepts_joined setitem_raises "Types" (repo_types self)
  && accepts_joined setitem_raises "URIs" (uris self)
  && accepts_joined setitem_raises "Suites" (suites self)
  && accepts_joined setitem_raises "Components" (components self)
  && forallb (λ kv, accepts setitem_raises kv.1 kv.2) (written_pairs self).

(** The paragraph [to_deb822] has built when it returns. *)
Definition paragraph_of (self : Deb822RepositoryInformation)
    (ts us ss cs : list string) : gmap string pyval :=
  store "Date-Max-Future" (written_value (date_max_future self))
  (store "Check-Date" (written_value (check_date self))
  (store "Valid-Until-Max" (written_value (valid_until_max self))
  (store "Valid-Until-Min" (written_value (valid_until_min self))
  (store "Check-Valid-Until" (written_value (check_valid_until self))
  (store "Signed-By" (written_value (signed_by self))
  (store "Trusted" (written_value (trusted self))
  (store "Allow-Downgrade-To-Insecure"
     (written_value (allow_downgrade_to_insecure self))
  (store "Allow-Weak" (written_value (allow_weak self))
  (store "Allow-Insecure" (written_value (allow_insecure self))
  (store "By-Hash" (written_value (by_hash self))
  (store "PDiffs" (written_value (pdiffs self))
  (store "Targets" (written_value (targets self))
  (store "Architectures" (written_value (architectures self))
  (store "Enabled" (written_value (enabled self))
  (<["Components" := PStr (Py.join " " cs)]>
  (<["Suites" := PStr (Py.join " " ss)]>
  (<["URIs" := PStr (Py.join " " us)]>
  (<["Types" := PStr (Py.join " " ts)]> ∅)))))))))))))))))).

(** A line that starts with the disabling prefix. *)
Definition starts_with_hash_space (s : string) : bool :=
  match s with
  | String a (String b _) => Ascii.eqb a "#" && Ascii.eqb b " "
  | _ => false
  end.

(** * Basic facts *)

Lemma bind_Return {A B : Type} (r : result A) (k : A → result B) (b : B) :
  r ≫= k = Return b → ∃ a, r = Return a ∧ k a = Return b.
Proof. destruct r as [a|e]; simpl; [eauto | discriminate]. Qed.

Lemma bind_ret {A B : Type} (a : A) (k : A → result B) : Return a ≫= k = k a.
Proof. reflexivity. Qed.

Example split_ex : Py.split "  deb   http://x  stable main " = ["deb"; "http://x"; "stable"; "main"].
Proof. reflexivity. Qed.

Example split_on_ex : Py.split_on "=" "a=b=c" = ["a"; "b"; "c"].
Proof. reflexivity. Qed.

Example search_ex :
  OptionsRegex.search "deb [arch=amd64,i386 trusted=yes] http://e stable main"
  = Some "arch=amd64,i386 trusted=yes".
Proof. reflexivity. Qed.

Example sub_ex :
  OptionsRegex.sub "deb [arch=amd64] http://e [x] stable main" = "deb  stable main".
Proof. reflexivity. Qed.

Example sub_ex2 : OptionsRegex.sub "a [] b [x" = "a [] b [x".
Proof. reflexivity. Qed.

Example strip_ex : Py.strip "  a b  " = "a b".
Proof. reflexivity. Qed.

(** * Properties of the line parser *)

(** Without a bracketed block, [options] stays [None]: the parser either
    rejects the line or fails on [options.get]. *)
Lemma from_line_without_block urlparse_raises line :
  OptionsRegex.search line = None →
  from_line urlparse_raises line = Return None
  ∨ from_line urlparse_raises line = Raise AttributeError.
Proof.
  intros Hsearch. unfold from_line. rewrite Hsearch. simpl.
  destruct (Py.startswith "#" line);
    (match goal with |- context [filter ?P ?l] => destruct (filter P l) as [|p0 [|p1 [|p2 [|p3 rest]]]] end;
     simpl; auto;
     destruct (bool_decide (p0 ∈ ["deb"; "deb-src"])); simpl; auto;
     destruct (urlparse_raises p1); auto).
Qed.

Lemma from_line_without_block_no_descriptor urlparse_raises line d :
  OptionsRegex.search line = None →
  from_line urlparse_raises line ≠ Return (Some d).
Proof.
  intros Hsearch Hd.
  destruct (from_line_without_block urlparse_raises line Hsearch) as [H|H];
    rewrite H in Hd; discriminate.
Qed.

(** C1.  The entry [deb http://example.com/debian stable main] is well formed
    and has no options block, yet [from_line] returns no descriptor for it:
    the call ends in [AttributeError] (or in [None] if [urlparse] rejects the
    URI), so there is nothing [to_line] could format back to the line. *)
Theorem from_line_plain_entry_fails (urlparse_raises : string → bool) :
  from_line urlparse_raises plain_entry =
    if urlparse_raises "http://example.com/debian"
    then Return None else Raise AttributeError.
Proof.
  unfold from_line, plain_entry.
  vm_compute. destruct (urlparse_raises _); reflexivity.
Qed.

(** A descriptor without options is written with no space between the type
    and the URI: the separator only comes with the options block. *)
Example to_line_without_options :
  to_line (mkLine "deb" "http://example.com/debian" "stable"
             (no_options (Some ["main"]) (Some (PBool true))))
  = Return "debhttp://example.com/debian stable main".
Proof. reflexivity. Qed.

(** Every descriptor [from_line] returns has a type, a URI, a suite and at
    least one component, and [enabled] set. *)
Lemma from_line_components urlparse_raises line d :
  from_line urlparse_raises line = Return (Some d) →
  ∃ c cs, components d = Some (c :: cs).
Proof.
  unfold from_line. intros H.
  apply bind_Return in H as [[line' options] [_ H]].
  destruct (Py.startswith "#" line');
    (match type of H with context [filter ?P ?l] =>
       destruct (filter P l) as [|p0 [|p1 [|p2 [|p3 rest]]]] end;
     simpl in H; try discriminate;
     destruct (bool_decide (p0 ∈ ["deb"; "deb-src"])); simpl in H; try discriminate;
     destruct (urlparse_raises p1); try discriminate;
     destruct options as [m|]; simpl in H; try discriminate;
     injection H as <-; simpl; eauto).
Qed.

(** * Properties of the batch parser *)

Lemma from_lists_go_returns urlparse_raises value acc out :
  from_lists_go urlparse_raises acc value = Return out →
  out = acc ++ omap (parsed urlparse_raises) value.
Proof.
  revert acc. induction value as [|line rest IH]; intros acc H; simpl in *.
  - injection H as <-. by rewrite app_nil_r.
  - unfold parsed at 1. destruct (Py.isspace line); [by apply IH|].
    destruct (from_line urlparse_raises line) as [[d|]|e]; simpl in H.
    + apply IH in H. by rewrite <- app_assoc in H.
    + by apply IH.
    + discriminate.
Qed.

(** When the batch parser returns, it returns the descriptors of the lines
    that parsed, in the order of the input. *)
Lemma from_lists_returns urlparse_raises value out :
  from_lists urlparse_raises value = Return out →
  out = omap (parsed urlparse_raises) value.
Proof. apply from_lists_go_returns. Qed.

(** An exception of [from_line] is not caught by the loop. *)
Lemma from_lists_go_raises urlparse_raises value acc line e :
  line ∈ value → Py.isspace line = false →
  from_line urlparse_raises line = Raise e →
  ∃ e', from_lists_go urlparse_raises acc value = Raise e'.
Proof.
  intros Hin Hsp Hraise. revert acc.
  induction value as [|l rest IH]; intros acc; [by apply elem_of_nil in Hin|].
  apply elem_of_cons in Hin as [<-|Hin]; simpl.
  - rewrite Hsp, Hraise. simpl. eauto.
  - destruct (Py.isspace l); [by apply IH|].
    destruct (from_line urlparse_raises l) as [[d|]|e0]; simpl; eauto.
Qed.

(** C2.  A batch holding the one well-formed entry
    [deb http://example.com/debian stable main] does not return its
    descriptor: the [AttributeError] of [from_line] reaches the caller of
    [from_lists] (if [urlparse] rejects the URI the result is the empty list). *)
Theorem from_lists_plain_entry_fails (urlparse_raises : string → bool) :
  from_lists urlparse_raises [plain_entry] =
    if urlparse_raises "http://example.com/debian"
    then Return [] else Raise AttributeError.
Proof.
  unfold from_lists, plain_entry.
  vm_compute. destruct (urlparse_raises _); reflexivity.
Qed.

(** * Properties of the line formatter *)

(** Whatever [to_line] returns for a descriptor whose [enabled] is [None]
    starts with the disabling prefix. *)
Lemma to_line_unset_enabled (self : LineRepositoryInformation) out :
  enabled self = None → to_line self = Return out →
  ∃ rest, out = "# " +:+ rest.
Proof.
  unfold to_line. intros Hen H. rewrite Hen in H. simpl in H.
  apply bind_Return in H as [joined [_ H]].
  apply bind_Return in H as [opts [_ H]].
  injection H as <-. eauto.
Qed.

(** C7.  For the descriptor with [enabled] unset, [is_enabled] answers
    [True], and still [to_line] writes the ['# '] prefix: the formatter tests
    [not self.enabled] instead of asking [is_enabled]. *)
Theorem to_line_unset_enabled_is_prefixed :
  is_enabled unset_enabled_entry = PBool true
  ∧ to_line unset_enabled_entry
    = Return "# deb [arch=amd64] http://example.com/debian stable main".
Proof. split; reflexivity. Qed.

(** C6.  The option [by_hash] is written under the name [by_hash], with its
    underscore: the result of [name.replace('_', '-')] is dropped.  The line
    written is not read back as the same descriptor. *)
Theorem to_line_keeps_underscores :
  to_line by_hash_entry
  = Return "deb [by_hash=yes] http://example.com/debian stable main"
  ∧ from_line (λ _, false)
      "deb [by-hash=yes] http://example.com/debian stable main"
    = Return (Some by_hash_entry)
  ∧ from_line (λ _, false)
      "deb [by_hash=yes] http://example.com/debian stable main"
    ≠ Return (Some by_hash_entry).
Proof.
  split; [reflexivity|]. split; [vm_compute; reflexivity|].
  vm_compute. discriminate.
Qed.

(** * Properties of the DEB822 codec *)

(** C4.  A paragraph without [Components] parses to a descriptor whose
    [components] is [None], and [from_sources] keeps it in its result:
    [from_deb822] never answers [None], so the test in [from_sources] that
    would skip a malformed paragraph never fires. *)
Theorem from_deb822_without_components :
  from_deb822 no_components_paragraph = Return no_components_descriptor
  ∧ components no_components_descriptor = None
  ∧ from_sources (λ _, [no_components_paragraph])
      ["Types: deb"; "URIs: http://example.com/debian"; "Suites: stable"]
    = Return [no_components_descriptor].
Proof. repeat split; vm_compute; reflexivity. Qed.

(** An empty [Components] field gives the empty list. *)
Example from_deb822_empty_components :
  ∃ d, from_deb822 (<["Components" := PStr ""]> no_components_paragraph) = Return d
       ∧ components d = Some [].
Proof. eexists. split; vm_compute; reflexivity. Qed.

Lemma setitem_other setitem_raises container key value out other :
  setitem setitem_raises container key value = Return out → key ≠ other →
  out !! other = container !! other.
Proof.
  unfold setitem. destruct (setitem_raises key value); [discriminate|].
  intros H Hne. injection H as <-. by rewrite lookup_insert_ne.
Qed.

Lemma write_if_present_other setitem_raises container key val out other :
  write_if_present setitem_raises container key val = Return out →
  key ≠ other → out !! other = container !! other.
Proof.
  destruct val as [[s|l|b|n]|]; simpl; try discriminate;
    try apply setitem_other.
  intros H _. by injection H as <-.
Qed.

(** No paragraph [to_deb822] returns has a [Languages] field. *)
Lemma to_deb822_no_languages setitem_raises
    (self : Deb822RepositoryInformation) out :
  to_deb822 setitem_raises self = Return out → out !! "Languages" = None.
Proof.
  unfold to_deb822. intros H.
  repeat (apply bind_Return in H as [? [? H]]).
  injection H as <-.
  repeat (erewrite write_if_present_other; [|eassumption|done]).
  repeat (erewrite setitem_other; [|eassumption|done]).
  apply lookup_empty.
Qed.

(** C5.  For a descriptor with [languages] set, [to_deb822] returns a
    paragraph with the four required fields and no [Languages] field: the
    sequence of [write_if_present] calls has none for it.  The container is
    taken to accept the four strings written. *)
Theorem to_deb822_omits_languages (setitem_raises : string → string → bool) :
  setitem_raises "Types" "deb" = false →
  setitem_raises "URIs" "http://example.com/debian" = false →
  setitem_raises "Suites" "stable" = false →
  setitem_raises "Components" "main" = false →
  languages languages_descriptor = Some (PList ["en"; "de"])
  ∧ ∃ out, to_deb822 setitem_raises languages_descriptor = Return out
      ∧ out !! "Types" = Some (PStr "deb")
      ∧ out !! "Components" = Some (PStr "main")
      ∧ out !! "Languages" = None.
Proof.
  intros Ht Hu Hs Hc. split; [reflexivity|].
  exists (<["Components" := PStr "main"]>
            (<["Suites" := PStr "stable"]>
               (<["URIs" := PStr "http://example.com/debian"]>
                  (<["Types" := PStr "deb"]> ∅)))).
  split.
  - unfold to_deb822, languages_descriptor, setitem. simpl join_field.
    rewrite !bind_ret. cbv beta. rewrite Ht. rewrite !bind_ret. cbv beta.
    rewrite Hu. rewrite !bind_ret. cbv beta.
    rewrite Hs. rewrite !bind_ret. cbv beta.
    rewrite Hc. reflexivity.
  - repeat split; vm_compute; reflexivity.
Qed.

(** The same with a container that refuses nothing. *)
Lemma to_deb822_omits_languages_witness :
  languages languages_descriptor = Some (PList ["en"; "de"])
  ∧ ∃ out, to_deb822 accept_all languages_descriptor = Return out
      ∧ out !! "Types" = Some (PStr "deb")
      ∧ out !! "Components" = Some (PStr "main")
      ∧ out !! "Languages" = None.
Proof. apply (to_deb822_omits_languages accept_all); reflexivity. Defined.

Lemma _get_values_wrong_type container key v :
  container !! key = Some v → is_str v = false →
  _get_values container key = Raise TypeError.
Proof. unfold _get_values. intros -> Hv. by destruct v. Qed.

Lemma _get_values_only_TypeError container key e :
  _get_values container key = Raise e → e = TypeError.
Proof.
  unfold _get_values.
  destruct (container !! key) as [[]|]; intros H; by inversion H.
Qed.

Lemma _get_values_str_or_absent container key :
  (∀ v, container !! key = Some v → is_str v = true) →
  _get_values container key
  = Return (match container !! key with
            | Some (PStr s) => Some (Py.split s)
            | _ => None
            end).
Proof.
  unfold _get_values. intros H.
  destruct (container !! key) as [[]|]; try reflexivity;
    by specialize (H _ eq_refl).
Qed.

(** Run the calls of [_get_values] before the failing one: each returns, or
    has raised [TypeError] itself. *)
Ltac earlier_get_values :=
  repeat match goal with
  | |- context [_get_values ?c ?k ≫= _] =>
      let E := fresh "E" in
      destruct (_get_values c k) as [?|?] eqn:E;
      [ simpl | apply _get_values_only_TypeError in E; subst; reflexivity ]
  end.

(** C9.  A paragraph in which one of the whitespace-split fields is present
    with a value that is not a string makes [from_deb822] raise [TypeError];
    a paragraph in which each of these fields is absent or a string is
    parsed, and every absent field is [None] in the descriptor. *)
Theorem from_deb822_absent_silent_wrong_type_loud (value : gmap string pyval) :
  (∀ key v, key ∈ split_fields → value !! key = Some v → is_str v = false →
     from_deb822 value = Raise TypeError)
  ∧ ((∀ key v, key ∈ split_fields → value !! key = Some v → is_str v = true) →
     ∃ d, from_deb822 value = Return d
          ∧ ∀ key, key ∈ split_fields → value !! key = None →
                   field_of key d = None).
Proof.
  split.
  - intros key v Hkey Hv Hstr.
    pose proof (_get_values_wrong_type value key v Hv Hstr) as Hraise.
    unfold split_fields in Hkey. unfold from_deb822.
    repeat (apply elem_of_cons in Hkey as [->|Hkey]);
      [ .. | by apply elem_of_nil in Hkey ];
      earlier_get_values; try (rewrite Hraise; reflexivity);
      congruence.
  - intros Hok. unfold from_deb822.
    rewrite !_get_values_str_or_absent
      by (intros v Hv; eapply Hok; [|exact Hv]; unfold split_fields; set_solver).
    simpl. eexists. split; [reflexivity|].
    intros key Hkey Habs. unfold split_fields in Hkey.
    repeat (apply elem_of_cons in Hkey as [->|Hkey]);
      [ .. | by apply elem_of_nil in Hkey ];
      unfold field_of; repeat (case_bool_decide; try done); simpl; by rewrite Habs.
Qed.

(** The two halves at sample paragraphs: a number under [URIs] raises, and
    the paragraph without [Components] parses with that field [None]. *)
Lemma from_deb822_absent_silent_wrong_type_loud_witness :
  from_deb822 wrong_type_paragraph = Raise TypeError
  ∧ ∃ d, from_deb822 no_components_paragraph = Return d
         ∧ field_of "Components" d = None.
Proof.
  split.
  - apply (proj1 (from_deb822_absent_silent_wrong_type_loud wrong_type_paragraph)
             "URIs" (PInt 3)).
    + unfold split_fields. set_solver.
    + vm_compute. reflexivity.
    + reflexivity.
  - destruct (proj2 (from_deb822_absent_silent_wrong_type_loud
                       no_components_paragraph)) as [d [Hd Hnone]].
    + intros key v Hkey. unfold split_fields in Hkey.
      repeat (apply elem_of_cons in Hkey as [->|Hkey]);
        [ .. | by apply elem_of_nil in Hkey ];
        vm_compute; intros H; inversion H; reflexivity.
    + exists d. split; [exact Hd|].
      apply Hnone; [unfold split_fields; set_solver | vm_compute; reflexivity].
Defined.

(** * Properties of the conversion to line descriptors *)

Section Blocks.

Context {A B : Type}.

(** Blocks of one length laid end to end: where the [k]-th element of the
    [i]-th block is. *)
Lemma bind_uniform_length (f : A → list B) (n : nat) (l : list A) :
  (∀ a, length (f a) = n) → length (l ≫= f) = (length l * n)%nat.
Proof.
  intros Hn. induction l as [|a l IH]; [reflexivity|].
  rewrite bind_cons, length_app, IH, Hn. simpl. lia.
Qed.

Lemma bind_uniform_lookup (f : A → list B) (n : nat) (l : list A) i a k :
  (∀ a, length (f a) = n) → l !! i = Some a → (k < n)%nat →
  (l ≫= f) !! (i * n + k)%nat = f a !! k.
Proof.
  intros Hn. revert i. induction l as [|a' l IH]; intros i Hi Hk.
  - by rewrite lookup_nil in Hi.
  - rewrite bind_cons. destruct i as [|i]; simpl in Hi.
    + injection Hi as ->. simpl. apply lookup_app_l. by rewrite Hn.
    + rewrite lookup_app_r by (rewrite Hn; lia).
      rewrite Hn. replace (S i * n + k - n)%nat with (i * n + k)%nat by lia.
      by apply IH.
Qed.

(** A loop whose body never raises yields the blocks of its iterations
    in order. *)
Lemma yield_each_total (body : A → result (list B)) (f : A → list B) l :
  (∀ a, body a = Return (f a)) → yield_each body l = Return (l ≫= f).
Proof.
  intros Hbody. induction l as [|a l IH]; [reflexivity|].
  simpl. rewrite Hbody. simpl. rewrite IH. reflexivity.
Qed.

End Blocks.

Lemma from_deb822_information_expansion value ts us ss :
  repo_types value = Some ts → uris value = Some us → suites value = Some ss →
  from_deb822_information value = Return (expansion value ts us ss).
Proof.
  unfold from_deb822_information, expansion. intros -> -> ->. simpl.
  apply yield_each_total. intros t.
  apply yield_each_total. intros u.
  apply (yield_each_total _ (λ s, [line_of value t u s])). reflexivity.
Qed.

Lemma line_of_carries (value : Deb822RepositoryInformation) t u s :
  carries value (line_of value t u s).
Proof. unfold carries. repeat split. Qed.

(** C3 (as amended).  For a DEB822 descriptor with lists [ts], [us], [ss] of
    types, URIs and suites, [from_deb822_information] yields
    [|ts| * |us| * |ss|] line descriptors; the one for the [i]-th type, the
    [j]-th URI and the [k]-th suite stands at position
    [(i * |us| + j) * |ss| + k], that is types vary slowest and suites
    fastest; each carries the components, [enabled] and every option of the
    source except [inrelease_path], which is [None]. *)
Theorem from_deb822_information_product
    (value : Deb822RepositoryInformation) (ts us ss : list string) :
  repo_types value = Some ts → uris value = Some us → suites value = Some ss →
  ∃ out, from_deb822_information value = Return out
    ∧ length out = (length ts * length us * length ss)%nat
    ∧ (∀ i j k t u s,
         ts !! i = Some t → us !! j = Some u → ss !! k = Some s →
         ∃ d : LineRepositoryInformation,
           out !! ((i * length us + j) * length ss + k)%nat = Some d
           ∧ repo_type d = t ∧ uri d = u ∧ suite d = s)
    ∧ (∀ d : LineRepositoryInformation, d ∈ out →
         carries value d ∧ inrelease_path d = None).
Proof.
  intros Hts Hus Hss. exists (expansion value ts us ss).
  split; [by apply from_deb822_information_expansion|].
  assert (Hinner : ∀ t u,
    length (ss ≫= λ s, [line_of value t u s]) = length ss).
  { intros t u. rewrite (bind_uniform_length _ 1%nat) by done. lia. }
  assert (Hmiddle : ∀ t,
    length (us ≫= λ u, ss ≫= λ s, [line_of value t u s])
    = (length us * length ss)%nat).
  { intros t. by apply bind_uniform_length. }
  split; [|split].
  - unfold expansion.
    rewrite (bind_uniform_length _ (length us * length ss)%nat) by done. lia.
  - intros i j k t u s Hi Hj Hk. unfold expansion.
    pose proof (lookup_lt_Some _ _ _ Hj) as Hjlt.
    pose proof (lookup_lt_Some _ _ _ Hk) as Hklt.
    replace ((i * length us + j) * length ss + k)%nat
      with (i * (length us * length ss) + (j * length ss + k))%nat by lia.
    rewrite (bind_uniform_lookup _ (length us * length ss)%nat ts i t)
      by (done || nia).
    rewrite (bind_uniform_lookup _ (length ss) us j u) by done.
    replace k with (k * 1 + 0)%nat by lia.
    rewrite (bind_uniform_lookup _ 1%nat ss k s) by (done || lia).
    exists (line_of value t u s). repeat split.
  - intros d Hd. unfold expansion in Hd.
    apply list_elem_of_bind in Hd as [t [Hd _]].
    apply list_elem_of_bind in Hd as [u [Hd _]].
    apply list_elem_of_bind in Hd as [s [Hd _]].
    apply list_elem_of_singleton in Hd as ->.
    split; [apply line_of_carries | reflexivity].
Qed.

(** The product at two types, one URI and two suites: four descriptors. *)
Lemma from_deb822_information_product_witness :
  ∃ out, from_deb822_information two_by_two = Return out
    ∧ length out = (2 * 1 * 2)%nat
    ∧ (∀ i j k t u s,
         ["deb"; "deb-src"] !! i = Some t →
         ["http://example.com/debian"] !! j = Some u →
         ["stable"; "testing"] !! k = Some s →
         ∃ d : LineRepositoryInformation,
           out !! ((i * 1 + j) * 2 + k)%nat = Some d
           ∧ repo_type d = t ∧ uri d = u ∧ suite d = s)
    ∧ (∀ d : LineRepositoryInformation, d ∈ out →
         carries two_by_two d ∧ inrelease_path d = None).
Proof.
  apply (from_deb822_information_product two_by_two
           ["deb"; "deb-src"] ["http://example.com/debian"] ["stable"; "testing"]);
    reflexivity.
Defined.

(** C3, as stated, fails: the line descriptor of a DEB822 descriptor with
    [inrelease_path] set does not have that field. *)
Lemma from_deb822_information_drops_inrelease_path :
  ∃ d, from_deb822_information inrelease_descriptor = Return [d]
       ∧ inrelease_path inrelease_descriptor = Some (PStr "dists/stable/InRelease")
       ∧ inrelease_path d = None.
Proof. eexists. repeat split. Qed.

(** Iterating over a field that holds [None] raises. *)
Example from_deb822_information_missing_suites :
  from_deb822_information
    (mkDeb822 (Some ["deb"]) (Some ["http://example.com/debian"]) None
       (no_options (Some ["main"]) None))
  = Raise TypeError.
Proof. reflexivity. Qed.

(** * The options round trip *)

(** C8, as stated, fails: no descriptor parsed from the entry has the string
    [yes] in [trusted]; the value of an option is always the list of its
    comma-separated parts. *)
Lemma options_entry_trusted_is_no_string :
  ¬ ∃ urlparse_raises d,
      from_line urlparse_raises options_entry = Return (Some d)
      ∧ trusted d = Some (PStr "yes").
Proof.
  intros (urlparse_raises & d & Hd & Htrusted).
  unfold options_entry in Hd. vm_compute in Hd.
  destruct (urlparse_raises _); [discriminate|].
  injection Hd as <-. discriminate.
Qed.

(** C8 (as amended).  The entry
    [deb [arch=amd64,i386 trusted=yes] http://example.com/debian stable main]
    parses to a descriptor with [architectures = ["amd64", "i386"]] and
    [trusted = ["yes"]], and the line [to_line] writes for it parses to the
    same descriptor. *)
Theorem options_entry_round_trip (urlparse_raises : string → bool) :
  urlparse_raises "http://example.com/debian" = false →
  ∃ d, from_line urlparse_raises options_entry = Return (Some d)
    ∧ architectures d = Some (PList ["amd64"; "i386"])
    ∧ trusted d = Some (PList ["yes"])
    ∧ ∃ line, to_line d = Return line
        ∧ from_line urlparse_raises line = Return (Some d).
Proof.
  intros Hurl.
  assert (Hparse : ∃ d, from_line urlparse_raises options_entry = Return (Some d)
            ∧ architectures d = Some (PList ["amd64"; "i386"])
            ∧ trusted d = Some (PList ["yes"])
            ∧ to_line d = Return options_entry).
  { unfold options_entry. eexists. split.
    - vm_compute. rewrite Hurl. reflexivity.
    - repeat split. }
  destruct Hparse as (d & Hd & Harch & Htrusted & Hline).
  exists d. repeat split; try assumption.
  exists options_entry. split; assumption.
Qed.

(** The round trip with a [urlparse] that accepts every token. *)
Lemma options_entry_round_trip_witness :
  ∃ d, from_line (λ _, false) options_entry = Return (Some d)
    ∧ architectures d = Some (PList ["amd64"; "i386"])
    ∧ trusted d = Some (PList ["yes"])
    ∧ ∃ line, to_line d = Return line
        ∧ from_line (λ _, false) line = Return (Some d).
Proof. apply (options_entry_round_trip (λ _, false)). reflexivity. Defined.

(** * Stripping and the options block *)

Module PyFacts.

Import Py.

(** The two equations of [+:+], which [simpl] leaves folded. *)
Lemma append_nil (b : string) : "" +:+ b = b.
Proof. reflexivity. Qed.

Lemma append_cons c (a b : string) : String c a +:+ b = String c (a +:+ b).
Proof. reflexivity. Qed.

Lemma append_assoc (a b c : string) : (a +:+ b) +:+ c = a +:+ (b +:+ c).
Proof.
  induction a as [|x a IH]; [reflexivity|].
  by rewrite !append_cons, IH.
Qed.

Lemma lstrip_no_leading_space s : no_leading_space s = true → lstrip s = s.
Proof.
  destruct s as [|c s]; simpl; [reflexivity|].
  by destruct (is_space c).
Qed.

Lemma rstrip_all_space s : all_space s = true → rstrip s = "".
Proof.
  induction s as [|c s IH]; simpl; [reflexivity|].
  intros [Hc Hs]%andb_prop. by rewrite IH, Hc.
Qed.

(** Whitespace at the end does not count. *)
Lemma rstrip_append_space a b : all_space b = true → rstrip (a +:+ b) = rstrip a.
Proof.
  intros Hb. induction a as [|c a IH].
  - rewrite append_nil. by apply rstrip_all_space.
  - rewrite append_cons. simpl. by rewrite IH.
Qed.

Lemma rstrip_cons_no_space c s :
  is_space c = false → rstrip (String c s) = String c (rstrip s).
Proof. intros Hc. simpl. rewrite Hc. by destruct (rstrip s). Qed.

(** What stands before a part that is not stripped away stays. *)
Lemma rstrip_append_kept a b : rstrip b ≠ "" → rstrip (a +:+ b) = a +:+ rstrip b.
Proof.
  intros Hb. induction a as [|c a IH]; [reflexivity|].
  rewrite !append_cons. simpl. rewrite IH.
  destruct (a +:+ rstrip b) eqn:E; [|reflexivity].
  destruct a; [by rewrite append_nil in E | by rewrite append_cons in E].
Qed.

End PyFacts.

(** The loop over two lists of options in a row. *)
Lemma format_loop_app acc l1 l2 :
  format_loop acc (l1 ++ l2) = format_loop acc l1 ≫= λ acc', format_loop acc' l2.
Proof.
  revert acc. induction l1 as [|[name value] l1 IH]; intros acc; simpl.
  - reflexivity.
  - destruct (stringified_value value); try reflexivity. apply IH.
Qed.

Lemma format_loop_one acc name value sv :
  stringified_value value = PStr sv →
  format_loop acc [(name, value)]
  = Return (acc +:+ remap_name name +:+ "=" +:+ sv +:+ " ").
Proof. intros H. simpl. by rewrite H. Qed.

(** On options that are text the loop returns, and what it has written
    does not start with whitespace. *)
Lemma format_loop_text options acc :
  options_are_text options = true →
  names_have_no_leading_space options = true →
  Py.no_leading_space acc = true →
  ∃ out, format_loop acc options = Return out
         ∧ Py.no_leading_space out = true.
Proof.
  revert acc. induction options as [|[name value] rest IH]; intros acc; simpl.
  - eauto.
  - intros [Hv Hrest]%andb_prop [[Hn Hne]%andb_prop Hnames]%andb_prop Hacc.
    simpl in Hv.
    destruct value as [s|l|b|n]; try discriminate; simpl;
      (apply IH; try assumption;
       destruct acc as [|c acc]; [|exact Hacc]; rewrite PyFacts.append_nil;
       destruct (remap_name name); [|exact Hn];
       by rewrite bool_decide_eq_true_2 in Hne).
Qed.

Lemma format_loop_not_text options acc :
  options_are_text options = false → format_loop acc options = Raise TypeError.
Proof.
  revert acc. induction options as [|[name value] rest IH]; intros acc; simpl.
  - discriminate.
  - destruct value as [s|l|b|n]; simpl; try reflexivity; apply IH.
Qed.

(** The dictionary comprehension keeps the order of the attributes. *)
Lemma set_options_app l1 l2 :
  set_options (l1 ++ l2) = set_options l1 ++ set_options l2.
Proof. unfold set_options. apply omap_app. Qed.

Lemma set_options_names items :
  forallb (λ kv : string * option pyval,
             Py.no_leading_space (remap_name kv.1)
             && negb (bool_decide (remap_name kv.1 = ""))) items = true →
  names_have_no_leading_space (set_options items) = true.
Proof.
  induction items as [|[k v] items IH]; simpl; [reflexivity|].
  intros [Hk Hrest]%andb_prop.
  destruct (bool_decide (k ∉ not_an_option)); [|by apply IH].
  destruct v as [v|]; simpl; [|by apply IH].
  rewrite Hk. by apply IH.
Qed.

Lemma instance_dict_last self :
  instance_dict self
  = earlier_attributes self ++ [("inrelease_path", inrelease_path self)].
Proof. reflexivity. Qed.

Lemma earlier_attributes_names self :
  names_have_no_leading_space (set_options (earlier_attributes self)) = true.
Proof. apply set_options_names. vm_compute. reflexivity. Qed.

Lemma set_options_inrelease_path v :
  set_options [("inrelease_path", Some v)] = [("inrelease_path", v)].
Proof. reflexivity. Qed.

Lemma remap_name_inrelease_path : remap_name "inrelease_path" = "inrelease_path".
Proof. reflexivity. Qed.

Lemma rstrip_after_no_space a c b :
  Py.is_space c = false →
  Py.rstrip (a +:+ String c b) = a +:+ String c (Py.rstrip b).
Proof.
  intros Hc. rewrite PyFacts.rstrip_append_kept;
    rewrite PyFacts.rstrip_cons_no_space by exact Hc; done.
Qed.

(** The options block when the last token written is that of
    [inrelease_path]: the space after it is stripped, with any whitespace the
    value ends in. *)
Lemma strip_inrelease_path_token pre sv :
  Py.no_leading_space pre = true →
  Py.strip (pre +:+ "inrelease_path" +:+ "=" +:+ sv +:+ " ")
  = pre +:+ "inrelease_path=" +:+ Py.rstrip sv.
Proof.
  intros Hpre. unfold Py.strip.
  rewrite PyFacts.lstrip_no_leading_space
    by (destruct pre; [reflexivity | exact Hpre]).
  rewrite <- PyFacts.append_assoc.
  change ("=" +:+ sv +:+ " ") with (String "=" (sv +:+ " ")).
  rewrite rstrip_after_no_space by reflexivity.
  rewrite PyFacts.rstrip_append_space by reflexivity.
  rewrite PyFacts.append_assoc. reflexivity.
Qed.

Lemma stringified_value_text value text :
  option_text value = Some text → stringified_value value = PStr text.
Proof. destruct value; simpl; intros H; by inversion H. Qed.

(** C10, as stated, fails: the value ["dists/x  "] is written without its
    two final spaces, and with a boolean in [pdiffs] nothing is written at
    all, [to_line] raises [TypeError]. *)
Lemma to_line_inrelease_path_not_as_stated :
  (inrelease_path inrelease_spaces_entry = Some (PStr "dists/x  ")
   ∧ to_line inrelease_spaces_entry
     = Return "deb [inrelease_path=dists/x] http://example.com/debian stable main")
  ∧ (inrelease_path inrelease_pdiffs_entry = Some (PStr "dists/x")
     ∧ to_line inrelease_pdiffs_entry = Raise TypeError).
Proof. repeat split. Qed.

(** C10 (as amended).  For a line descriptor whose components are a list,
    whose [inrelease_path] holds a string or a list of strings, of text
    [text], and whose options set before it are strings or lists of strings,
    [to_line] returns a line whose bracketed block ends in the token
    [inrelease_path=] followed by [text] without its trailing whitespace,
    after the tokens [pre] of the options set before it. *)
Theorem to_line_writes_inrelease_path
    (self : LineRepositoryInformation) (v : pyval) (text : string)
    (comps : list string) :
  components self = Some comps →
  inrelease_path self = Some v →
  option_text v = Some text →
  options_are_text (set_options (earlier_attributes self)) = true →
  ∃ pre,
    format_loop "" (set_options (earlier_attributes self)) = Return pre
    ∧ to_line self
      = Return ((if negb (truthy (enabled self)) then "# " else "")
                +:+ repo_type self
                +:+ (" [" +:+ (pre +:+ "inrelease_path=" +:+ Py.rstrip text)
                     +:+ "] ")
                +:+ uri self +:+ " " +:+ suite self +:+ " "
                +:+ Py.join " " comps).
Proof.
  intros Hcomps Hpath Htext Hearlier.
  pose proof (stringified_value_text _ _ Htext) as Hsv.
  destruct (format_loop_text (set_options (earlier_attributes self)) ""
              Hearlier (earlier_attributes_names self) eq_refl)
    as (pre & Hpre & Hlead).
  exists pre. split; [exact Hpre|].
  assert (Hblock : _format_options self
    = Return (" [" +:+ (pre +:+ "inrelease_path=" +:+ Py.rstrip text) +:+ "] ")).
  { unfold _format_options. cbv zeta.
    rewrite instance_dict_last, set_options_app, Hpath, set_options_inrelease_path.
    rewrite length_app.
    replace (length (set_options (earlier_attributes self))
             + length [("inrelease_path", v)] <=? 0)%nat
      with false by (symmetry; apply Nat.leb_gt; simpl; lia).
    rewrite format_loop_app, Hpre, bind_ret.
    rewrite (format_loop_one _ _ _ text Hsv), bind_ret.
    rewrite remap_name_inrelease_path.
    rewrite strip_inrelease_path_token by exact Hlead.
    reflexivity. }
  unfold to_line. rewrite Hcomps, bind_ret. cbv zeta.
  rewrite Hblock, bind_ret. reflexivity.
Qed.

(** The token at a descriptor with one more option before it. *)
Lemma to_line_writes_inrelease_path_witness :
  ∃ pre,
    format_loop "" (set_options (earlier_attributes inrelease_entry)) = Return pre
    ∧ to_line inrelease_entry
      = Return ((if negb (truthy (enabled inrelease_entry)) then "# " else "")
                +:+ repo_type inrelease_entry
                +:+ (" [" +:+ (pre +:+ "inrelease_path="
                               +:+ Py.rstrip "dists/stable/InRelease") +:+ "] ")
                +:+ uri inrelease_entry +:+ " " +:+ suite inrelease_entry +:+ " "
                +:+ Py.join " " ["main"]).
Proof.
  apply (to_line_writes_inrelease_path inrelease_entry
           (PStr "dists/stable/InRelease") "dists/stable/InRelease" ["main"]);
    reflexivity.
Defined.

Example to_line_inrelease_entry :
  to_line inrelease_entry
  = Return "deb [arch=amd64 inrelease_path=dists/stable/InRelease] http://example.com/debian stable main".
Proof. reflexivity. Qed.

(** When an option holds a boolean or a number, [to_line] raises. *)
Lemma to_line_not_text (self : LineRepositoryInformation) :
  options_are_text (set_options (instance_dict self)) = false →
  ∃ e, to_line self = Raise e.
Proof.
  intros Htext. unfold to_line.
  destruct (components self); simpl; [|eauto].
  unfold _format_options.
  destruct (set_options (instance_dict self)) as [|o options] eqn:E;
    [discriminate|].
  simpl (length _ <=? 0)%nat. cbv iota.
  rewrite format_loop_not_text by exact Htext. simpl. eauto.
Qed.

(** * Tokens: what [split] returns and [join] puts together *)

Lemma append_empty_r (a : string) : a +:+ EmptyString = a.
Proof.
  induction a as [|x a IH]; [reflexivity|].
  by rewrite PyFacts.append_cons, IH.
Qed.

Lemma contains_append c a b : contains c (a +:+ b) = contains c a || contains c b.
Proof.
  induction a as [|x a IH]; [reflexivity|].
  rewrite PyFacts.append_cons. simpl. by rewrite IH, orb_assoc.
Qed.

Lemma no_space_append a b : no_space (a +:+ b) = no_space a && no_space b.
Proof.
  induction a as [|x a IH]; [reflexivity|].
  rewrite PyFacts.append_cons. simpl. by rewrite IH, andb_assoc.
Qed.

(** Every string [split_go] returns is a token, when the run read so far has
    no whitespace. *)
Lemma split_go_tokens cur s :
  no_space cur = true → all_tokens (Py.split_go cur s) = true.
Proof.
  revert cur. induction s as [|c s IH]; intros cur Hcur; simpl.
  - case_bool_decide as Hc; [reflexivity|]. simpl.
    unfold is_token. rewrite Hcur, bool_decide_eq_false_2 by exact Hc. reflexivity.
  - destruct (Py.is_space c) eqn:Hsp.
    + case_bool_decide as Hc; [by apply IH|]. simpl.
      unfold is_token at 1. rewrite Hcur, bool_decide_eq_false_2 by exact Hc.
      simpl. by apply IH.
    + apply IH. rewrite no_space_append, Hcur. simpl. by rewrite Hsp.
Qed.

Lemma split_tokens s : all_tokens (Py.split s) = true.
Proof. by apply split_go_tokens. Qed.

(** Reading a run without whitespace only extends the current token. *)
Lemma split_go_run cur t rest :
  no_space t = true →
  Py.split_go cur (t +:+ rest) = Py.split_go (cur +:+ t) rest.
Proof.
  revert cur. induction t as [|c t IH]; intros cur Ht.
  - by rewrite PyFacts.append_nil, append_empty_r.
  - simpl in Ht. apply andb_prop in Ht as [Hc Ht].
    rewrite PyFacts.append_cons. simpl.
    apply negb_true_iff in Hc. rewrite Hc.
    rewrite IH by exact Ht. by rewrite PyFacts.append_assoc.
Qed.

(** Splitting what [' '.join] made of tokens gives the tokens back. *)
Lemma split_join l : all_tokens l = true → Py.split (Py.join " " l) = l.
Proof.
  unfold Py.split. induction l as [|x l IH]; [reflexivity|].
  intros [Hx Hl]%andb_prop. unfold is_token in Hx.
  apply andb_prop in Hx as [Hne Hns]. apply negb_true_iff in Hne.
  destruct l as [|y l].
  - change (Py.join " " [x]) with x.
    rewrite <- (append_empty_r x) at 1.
    rewrite split_go_run by exact Hns. rewrite PyFacts.append_nil.
    simpl. by rewrite Hne.
  - change (Py.join " " (x :: y :: l)) with (x +:+ String " " (Py.join " " (y :: l))).
    rewrite split_go_run by exact Hns. rewrite PyFacts.append_nil.
    change (Py.split_go x (String " " (Py.join " " (y :: l))))
      with (if bool_decide (x = EmptyString)
            then Py.split_go EmptyString (Py.join " " (y :: l))
            else x :: Py.split_go EmptyString (Py.join " " (y :: l))).
    rewrite Hne. f_equal. by apply IH.
Qed.

(** * Further properties of the line parser *)

(** A line without ['['] has no options block. *)
Lemma search_no_bracket line :
  contains "[" line = false → OptionsRegex.search line = None.
Proof.
  induction line as [|c line IH]; [reflexivity|].
  simpl contains. intros [Hc Hline]%orb_false_elim.
  simpl. rewrite Hc. by apply IH.
Qed.

(** X1.  A line with no ['['] in it never parses to a descriptor: [from_line]
    answers [None] or ends in [AttributeError]. *)
Theorem from_line_no_bracket (urlparse_raises : string → bool) (line : string) :
  contains "[" line = false →
  from_line urlparse_raises line = Return None
  ∨ from_line urlparse_raises line = Raise AttributeError.
Proof.
  intros Hline. apply from_line_without_block. by apply search_no_bracket.
Qed.

Lemma from_line_no_bracket_witness :
  from_line (λ _, false) "# deb-src http://example.com/debian stable main contrib"
  = Return None
  ∨ from_line (λ _, false) "# deb-src http://example.com/debian stable main contrib"
    = Raise AttributeError.
Proof. apply from_line_no_bracket. reflexivity. Defined.

Lemma split_on_go_nonempty sep cur s :
  ∃ b rest, Py.split_on_go sep cur s = b :: rest.
Proof.
  revert cur. induction s as [|c s IH]; intros cur; simpl; [eauto|].
  destruct (Ascii.eqb c sep); eauto.
Qed.

Lemma split_on_go_no_sep sep cur s :
  contains sep s = false → Py.split_on_go sep cur s = [cur +:+ s].
Proof.
  revert cur. induction s as [|c s IH]; intros cur; simpl.
  - by rewrite append_empty_r.
  - intros [Hc Hs]%orb_false_elim. rewrite Hc, IH by exact Hs.
    by rewrite PyFacts.append_assoc.
Qed.

Lemma split_on_go_sep sep cur s :
  contains sep s = true → ∃ a b rest, Py.split_on_go sep cur s = a :: b :: rest.
Proof.
  revert cur. induction s as [|c s IH]; intros cur; simpl; [discriminate|].
  destruct (Ascii.eqb c sep); simpl.
  - intros _. destruct (split_on_go_nonempty sep EmptyString s) as (b & rest & ->).
    eauto.
  - apply IH.
Qed.

(** The comprehension fails exactly on a token without ['=']. *)
Lemma options_dict_bad_token acc tokens tok :
  tok ∈ tokens → contains "=" tok = false →
  options_dict acc tokens = Raise IndexError.
Proof.
  intros Hin Htok. revert acc.
  induction tokens as [|val rest IH]; intros acc; [by apply elem_of_nil in Hin|].
  simpl. destruct (contains "=" val) eqn:Hval.
  - destruct (split_on_go_sep "=" EmptyString val Hval) as (a & b & r & Hsplit).
    unfold Py.split_on. rewrite Hsplit.
    apply elem_of_cons in Hin as [->|Hin]; [congruence | by apply IH].
  - unfold Py.split_on. by rewrite split_on_go_no_sep.
Qed.

Lemma options_dict_raises acc tokens e :
  options_dict acc tokens = Raise e →
  e = IndexError ∧ ∃ tok, tok ∈ tokens ∧ contains "=" tok = false.
Proof.
  revert acc. induction tokens as [|val rest IH]; intros acc; simpl; [discriminate|].
  destruct (contains "=" val) eqn:Hval.
  - destruct (split_on_go_sep "=" EmptyString val Hval) as (a & b & r & Hsplit).
    unfold Py.split_on. rewrite Hsplit. intros H.
    destruct (IH _ H) as (He & tok & Hin & Htok).
    split; [exact He|]. exists tok. split; [by apply elem_of_cons; right | exact Htok].
  - unfold Py.split_on. rewrite split_on_go_no_sep by exact Hval.
    intros H. injection H as <-. split; [reflexivity|].
    exists val. split; [by apply elem_of_cons; left | exact Hval].
Qed.

(** X2.  A token without ['='] inside the block makes [from_line] raise
    [IndexError], whatever the rest of the line is: the block is read before
    the line is checked. *)
Theorem from_line_bad_token (urlparse_raises : string → bool)
    (line inner tok : string) :
  OptionsRegex.search line = Some inner →
  tok ∈ Py.split inner → contains "=" tok = false →
  from_line urlparse_raises line = Raise IndexError.
Proof.
  intros Hsearch Hin Htok. unfold from_line. rewrite Hsearch.
  by rewrite (options_dict_bad_token _ _ tok Hin Htok).
Qed.

Lemma from_line_bad_token_witness :
  from_line (λ _, false) "ftp [arch=amd64 trusted] x" = Raise IndexError.
Proof.
  apply (from_line_bad_token _ _ "arch=amd64 trusted" "trusted").
  - reflexivity.
  - vm_compute. set_solver.
  - reflexivity.
Defined.

(** X3.  [from_line] raises in two ways only: [AttributeError] when the line
    has no options block, [IndexError] when the block has a token without
    ['=']. *)
Theorem from_line_raises_only (urlparse_raises : string → bool)
    (line : string) (e : exn) :
  from_line urlparse_raises line = Raise e →
  (e = AttributeError ∧ OptionsRegex.search line = None)
  ∨ (e = IndexError
     ∧ ∃ inner tok, OptionsRegex.search line = Some inner
                    ∧ tok ∈ Py.split inner ∧ contains "=" tok = false).
Proof.
  intros H. destruct (OptionsRegex.search line) as [inner|] eqn:Hsearch.
  - right. unfold from_line in H. rewrite Hsearch in H.
    destruct (options_dict ∅ (Py.split inner)) as [m|e0] eqn:Hdict.
    + exfalso. rewrite bind_ret in H. cbv beta iota in H.
      rewrite bind_ret in H. cbv beta iota in H.
      destruct (Py.startswith "#" (OptionsRegex.sub line));
        (match type of H with context [filter ?P ?l] =>
           destruct (filter P l) as [|p0 [|p1 [|p2 [|p3 rest]]]] end;
         try discriminate;
         destruct (bool_decide (p0 ∈ ["deb"; "deb-src"])); try discriminate;
         destruct (urlparse_raises p1); discriminate).
    + injection H as <-.
      destruct (options_dict_raises _ _ _ Hdict) as (-> & tok & Hin & Htok).
      split; [reflexivity|]. by exists inner, tok.
  - left. destruct (from_line_without_block urlparse_raises line Hsearch) as [H'|H'];
      rewrite H' in H; [discriminate|]. injection H as <-. by split.
Qed.

Lemma from_line_raises_only_witness :
  (AttributeError = AttributeError ∧ OptionsRegex.search plain_entry = None)
  ∨ (AttributeError = IndexError
     ∧ ∃ inner tok, OptionsRegex.search plain_entry = Some inner
                    ∧ tok ∈ Py.split inner ∧ contains "=" tok = false).
Proof.
  apply (from_line_raises_only (λ _, false) plain_entry AttributeError).
  reflexivity.
Defined.

Lemma all_tokens_filter (P : string → Prop) `{!∀ x, Decision (P x)} l :
  all_tokens l = true → all_tokens (filter P l) = true.
Proof.
  induction l as [|x l IH]; [done|]. simpl.
  intros [Hx Hl]%andb_prop. rewrite filter_cons.
  destruct (decide (P x)); simpl; [rewrite Hx|]; by apply IH.
Qed.

Lemma set_options_Forall (P : pyval → Prop) items :
  Forall (λ kv : string * option pyval,
            kv.1 ∈ not_an_option ∨ ∀ v, kv.2 = Some v → P v) items →
  Forall (λ kv : string * pyval, P kv.2) (set_options items).
Proof.
  induction 1 as [|[k v] items Hkv _ IH]; [constructor|].
  unfold set_options. simpl omap. fold (set_options items).
  case_bool_decide as Hk.
  - destruct v as [v|]; simpl; [|exact IH].
    constructor; [|exact IH]. simpl. destruct Hkv as [Hin|Hv]; [done | by apply Hv].
  - exact IH.
Qed.

(** The shape of what [from_line] returns. *)
Lemma from_line_shape (urlparse_raises : string → bool)
    (line : string) (d : LineRepositoryInformation) :
  from_line urlparse_raises line = Return (Some d) →
  (repo_type d = "deb" ∨ repo_type d = "deb-src")
  ∧ urlparse_raises (uri d) = false
  ∧ is_token (uri d) = true ∧ is_token (suite d) = true
  ∧ (∃ c cs, components d = Some (c :: cs) ∧ all_tokens (c :: cs) = true)
  ∧ (∃ b, enabled d = Some (PBool b))
  ∧ inrelease_path d = None
  ∧ Forall (λ kv : string * pyval, ∃ l, kv.2 = PList l)
      (set_options (instance_dict d)).
Proof.
  unfold from_line. intros H.
  apply bind_Return in H as [[line' options] [_ H]].
  set (stripped := if Py.startswith "#" line' then (Py.tail line', false)
                   else (line', true)) in H.
  destruct stripped as [line'' is_on].
  pose proof (all_tokens_filter (λ p, p ≠ EmptyString) _ (split_tokens line''))
    as Htok.
  destruct (filter (λ p, p ≠ EmptyString) (Py.split line''))
    as [|p0 [|p1 [|p2 [|p3 rest]]]]; try discriminate.
  destruct (bool_decide (p0 ∈ ["deb"; "deb-src"])) eqn:Htype; try discriminate.
  destruct (urlparse_raises p1) eqn:Hurl; try discriminate.
  destruct options as [m|]; [|discriminate].
  unfold options_get in H. repeat (rewrite bind_ret in H; cbv beta in H).
  injection H as <-.
  simpl in Htok. apply andb_prop in Htok as [_ Htok].
  apply andb_prop in Htok as [Hp1 Htok]. apply andb_prop in Htok as [Hp2 Htok].
  cbn [repo_type uri suite line_base components enabled inrelease_path].
  apply bool_decide_eq_true in Htype.
  repeat split; try assumption; eauto.
  - apply elem_of_cons in Htype as [->|Htype]; [by left|].
    apply elem_of_cons in Htype as [->|Htype]; [by right|].
    by apply elem_of_nil in Htype.
  - apply (set_options_Forall (λ v, ∃ l, v = PList l)). unfold instance_dict.
    cbn [repo_type uri suite line_base components enabled architectures
         languages targets pdiffs by_hash allow_insecure allow_weak
         allow_downgrade_to_insecure trusted signed_by check_valid_until
         valid_until_min valid_until_max check_date date_max_future
         inrelease_path].
    repeat apply Forall_cons_2; try apply Forall_nil_2;
      first [ left; unfold not_an_option; cbn [fst];
              solve [repeat first [apply list_elem_of_here | apply list_elem_of_further]]
            | right; cbn [snd]; intros v Hv;
              match type of Hv with
              | PList <$> ?o = _ => destruct o; inversion Hv; eauto
              | None = _ => discriminate
              end ].
Qed.

(** X4.  What [from_line] returns is a full line descriptor: the type is
    [deb] or [deb-src], [urlparse] accepted the URI, URI, suite and components
    are tokens, there is at least one component, [enabled] is a boolean,
    [inrelease_path] is [None] and every option that is set holds a list. *)
Theorem from_line_descriptor_shape (urlparse_raises : string → bool)
    (line : string) (d : LineRepositoryInformation) :
  from_line urlparse_raises line = Return (Some d) →
  (repo_type d = "deb" ∨ repo_type d = "deb-src")
  ∧ urlparse_raises (uri d) = false
  ∧ is_token (uri d) = true ∧ is_token (suite d) = true
  ∧ (∃ c cs, components d = Some (c :: cs) ∧ all_tokens (c :: cs) = true)
  ∧ (∃ b, enabled d = Some (PBool b))
  ∧ inrelease_path d = None
  ∧ Forall (λ kv : string * pyval, ∃ l, kv.2 = PList l)
      (set_options (instance_dict d)).
Proof. apply from_line_shape. Qed.

Lemma from_line_descriptor_shape_witness :
  (repo_type by_hash_entry = "deb" ∨ repo_type by_hash_entry = "deb-src")
  ∧ (λ _ : string, false) (uri by_hash_entry) = false
  ∧ is_token (uri by_hash_entry) = true ∧ is_token (suite by_hash_entry) = true
  ∧ (∃ c cs, components by_hash_entry = Some (c :: cs)
             ∧ all_tokens (c :: cs) = true)
  ∧ (∃ b, enabled by_hash_entry = Some (PBool b))
  ∧ inrelease_path by_hash_entry = None
  ∧ Forall (λ kv : string * pyval, ∃ l, kv.2 = PList l)
      (set_options (instance_dict by_hash_entry)).
Proof.
  apply (from_line_descriptor_shape (λ _, false)
           "deb [by-hash=yes] http://example.com/debian stable main").
  vm_compute. reflexivity.
Defined.

(** * Further properties of the line formatter *)

Lemma format_loop_returns options acc :
  options_are_text options = true → ∃ out, format_loop acc options = Return out.
Proof.
  revert acc. induction options as [|[name value] rest IH]; intros acc; simpl.
  - eauto.
  - intros [Hv Hrest]%andb_prop. simpl in Hv.
    destruct value as [s|l|b|n]; try discriminate; simpl; by apply IH.
Qed.

Lemma _format_options_returns (self : LineRepositoryInformation) :
  options_are_text (set_options (instance_dict self)) = true →
  ∃ block, _format_options self = Return block.
Proof.
  intros Htext. unfold _format_options. cbv zeta.
  destruct (length (set_options (instance_dict self)) <=? 0)%nat; [eauto|].
  destruct (format_loop_returns _ EmptyString Htext) as [out ->].
  rewrite bind_ret. eauto.
Qed.

Lemma _format_options_raises (self : LineRepositoryInformation) :
  options_are_text (set_options (instance_dict self)) = false →
  _format_options self = Raise TypeError.
Proof.
  intros Htext. unfold _format_options. cbv zeta.
  destruct (set_options (instance_dict self)) as [|o options] eqn:E;
    [discriminate|].
  change (length (o :: options) <=? 0)%nat with false. cbv iota.
  by rewrite format_loop_not_text.
Qed.

(** When [to_line] raises and what it returns. *)
Lemma to_line_cases (self : LineRepositoryInformation) :
  (components self = None
   ∨ options_are_text (set_options (instance_dict self)) = false →
   to_line self = Raise TypeError)
  ∧ (∀ comps, components self = Some comps →
       options_are_text (set_options (instance_dict self)) = true →
       ∃ block, _format_options self = Return block
         ∧ to_line self
           = Return ((if negb (truthy (enabled self)) then "# " else "")
                     +:+ repo_type self +:+ block +:+ uri self +:+ " "
                     +:+ suite self +:+ " " +:+ Py.join " " comps)).
Proof.
  split.
  - intros [Hc|Htext]; unfold to_line.
    + by rewrite Hc.
    + destruct (components self); [|reflexivity].
      rewrite bind_ret. cbv zeta. by rewrite _format_options_raises.
  - intros comps Hc Htext.
    destruct (_format_options_returns self Htext) as [block Hblock].
    exists block. split; [exact Hblock|].
    unfold to_line. rewrite Hc, bind_ret. cbv zeta. by rewrite Hblock, bind_ret.
Qed.

(** X5.  [to_line] returns a line exactly when the components are a list and
    every option that is set is a string or a list of strings; otherwise it
    raises [TypeError].  The line is the prefix decided by the truth value of
    [enabled], the type, the options block, and URI, suite and components
    separated by single spaces. *)
Theorem to_line_returns_or_raises (self : LineRepositoryInformation) :
  (components self = None
   ∨ options_are_text (set_options (instance_dict self)) = false →
   to_line self = Raise TypeError)
  ∧ (∀ comps, components self = Some comps →
       options_are_text (set_options (instance_dict self)) = true →
       ∃ block, _format_options self = Return block
         ∧ to_line self
           = Return ((if negb (truthy (enabled self)) then "# " else "")
                     +:+ repo_type self +:+ block +:+ uri self +:+ " "
                     +:+ suite self +:+ " " +:+ Py.join " " comps)).
Proof. apply to_line_cases. Qed.

(** A line descriptor whose option [pdiffs] holds a boolean, as the
    signature of [__init__] announces it. *)
Lemma to_line_returns_or_raises_witness :
  to_line (mkLine "deb" "http://example.com/debian" "stable"
             (mkBase (Some ["main"]) (Some (PBool true)) None None None
                (Some (PBool true)) None None None None None None None None
                None None None None))
  = Raise TypeError
  ∧ ∃ block, _format_options by_hash_entry = Return block
      ∧ to_line by_hash_entry
        = Return ((if negb (truthy (enabled by_hash_entry)) then "# " else "")
                  +:+ repo_type by_hash_entry +:+ block +:+ uri by_hash_entry
                  +:+ " " +:+ suite by_hash_entry +:+ " " +:+ Py.join " " ["main"]).
Proof.
  split.
  - apply to_line_returns_or_raises. right. reflexivity.
  - apply (proj2 (to_line_returns_or_raises by_hash_entry)); reflexivity.
Defined.




(** * Further properties of the DEB822 codec *)

Section Writer.

Variable setitem_raises : string → string → bool.

Lemma setitem_accepted container key value :
  setitem_raises key value = false →
  setitem setitem_raises container key value
  = Return (<[key := PStr value]> container).
Proof. unfold setitem. by intros ->. Qed.

Lemma setitem_Return container key value out :
  setitem setitem_raises container key value = Return out →
  setitem_raises key value = false.
Proof. unfold setitem. by destruct (setitem_raises key value). Qed.

Lemma setitem_Raise container key value e :
  setitem setitem_raises container key value = Raise e → e = ValueError.
Proof.
  unfold setitem. destruct (setitem_raises key value); intros H; by inversion H.
Qed.

Lemma write_if_present_store container key val :
  is_int val = false → accepts setitem_raises key val = true →
  write_if_present setitem_raises container key val
  = Return (store key (written_value val) container).
Proof.
  unfold accepts.
  destruct val as [[s|l|b|n]|]; simpl; try discriminate; try reflexivity;
    intros _ Hacc%negb_true_iff; by apply setitem_accepted.
Qed.

Lemma write_if_present_Return container key val out :
  write_if_present setitem_raises container key val = Return out →
  is_int val = false ∧ accepts setitem_raises key val = true.
Proof.
  unfold accepts.
  destruct val as [[s|l|b|n]|]; simpl; try discriminate; try done;
    intros H%setitem_Return; by rewrite H.
Qed.

Lemma write_if_present_Raise container key val e :
  write_if_present setitem_raises container key val = Raise e →
  e = TypeError ∨ e = ValueError.
Proof.
  destruct val as [[s|l|b|n]|]; simpl; try discriminate;
    try (intros H%setitem_Raise; by right).
  intros H. left. by inversion H.
Qed.

(** The paragraph [to_deb822] builds when nothing raises. *)
Lemma to_deb822_returns (self : Deb822RepositoryInformation) ts us ss cs :
  repo_types self = Some ts → uris self = Some us → suites self = Some ss →
  components self = Some cs →
  forallb (λ v, negb (is_int v)) (written_optionals self) = true →
  writes_accepted setitem_raises self = true →
  to_deb822 setitem_raises self = Return (paragraph_of self ts us ss cs).
Proof.
  intros Hts Hus Hss Hcs Hint Hacc. unfold to_deb822.
  unfold writes_accepted in Hacc.
  rewrite Hts, Hus, Hss, Hcs in *. unfold join_field. cbv zeta.
  unfold written_optionals in Hint. cbn [forallb] in Hint.
  repeat (apply andb_prop in Hint as [?Hv Hint]).
  repeat match goal with
         | H : negb (is_int _) = true |- _ => apply negb_true_iff in H
         end.
  unfold written_pairs in Hacc. cbn [forallb accepts_joined fst snd] in Hacc.
  apply andb_prop in Hacc as [Hreq Hacc].
  repeat (apply andb_prop in Hreq as [Hreq ?Hj]).
  repeat (apply andb_prop in Hacc as [?Ha Hacc]).
  repeat match goal with
         | H : negb (setitem_raises _ _) = true |- _ => apply negb_true_iff in H
         end.
  repeat first [ rewrite bind_ret; cbv beta
               | rewrite setitem_accepted by assumption
               | rewrite write_if_present_store by assumption ].
  reflexivity.
Qed.

Lemma join_field_Return x out :
  join_field x = Return out → ∃ l, x = Some l ∧ out = Py.join " " l.
Proof. destruct x; [|discriminate]. intros H. injection H as <-. eauto. Qed.

Lemma join_field_Raise x e : join_field x = Raise e → e = TypeError.
Proof. destruct x; [discriminate|]. intros H. by inversion H. Qed.

Lemma to_deb822_Return_inv (self : Deb822RepositoryInformation) out :
  to_deb822 setitem_raises self = Return out →
  ∃ ts us ss cs,
    repo_types self = Some ts ∧ uris self = Some us
    ∧ suites self = Some ss ∧ components self = Some cs
    ∧ forallb (λ v, negb (is_int v)) (written_optionals self) = true
    ∧ writes_accepted setitem_raises self = true
    ∧ out = paragraph_of self ts us ss cs.
Proof.
  intros Hout. pose proof Hout as H. unfold to_deb822 in H.
  apply bind_Return in H as (? & (ts & Hts & ->)%join_field_Return & H).
  apply bind_Return in H as (? & Hs1%setitem_Return & H).
  apply bind_Return in H as (? & (us & Hus & ->)%join_field_Return & H).
  apply bind_Return in H as (? & Hs2%setitem_Return & H).
  apply bind_Return in H as (? & (ss & Hss & ->)%join_field_Return & H).
  apply bind_Return in H as (? & Hs3%setitem_Return & H).
  apply bind_Return in H as (? & (cs & Hcs & ->)%join_field_Return & H).
  apply bind_Return in H as (? & Hs4%setitem_Return & H).
  repeat (apply bind_Return in H as (? & [?Hi ?Ha]%write_if_present_Return & H)).
  assert (Hint : forallb (λ v, negb (is_int v)) (written_optionals self) = true).
  { unfold written_optionals. cbn [forallb].
    repeat match goal with
           | Hw : is_int _ = false |- _ => rewrite Hw; clear Hw
           end.
    reflexivity. }
  assert (Hacc : writes_accepted setitem_raises self = true).
  { unfold writes_accepted, written_pairs. rewrite Hts, Hus, Hss, Hcs.
    cbn [forallb accepts_joined fst snd]. rewrite Hs1, Hs2, Hs3, Hs4.
    repeat match goal with
           | Hw : accepts _ _ _ = true |- _ => rewrite Hw; clear Hw
           end.
    reflexivity. }
  exists ts, us, ss, cs. repeat split; try assumption.
  rewrite (to_deb822_returns self ts us ss cs Hts Hus Hss Hcs Hint Hacc) in Hout.
  by injection Hout as <-.
Qed.

Lemma bind_Raise_inv {A B : Type} (r : result A) (k : A → result B) e :
  r ≫= k = Raise e → r = Raise e ∨ ∃ a, r = Return a ∧ k a = Raise e.
Proof. destruct r as [a|e']; simpl; [eauto | intros H; left; by inversion H]. Qed.

Lemma to_deb822_raises_only (self : Deb822RepositoryInformation) e :
  to_deb822 setitem_raises self = Raise e → e = TypeError ∨ e = ValueError.
Proof.
  unfold to_deb822. intros H.
  repeat (apply bind_Raise_inv in H as [H|(? & _ & H)];
          [ first [ apply join_field_Raise in H; left; exact H
                  | apply setitem_Raise in H; right; exact H
                  | apply write_if_present_Raise in H; exact H ] | ]).
  discriminate.
Qed.

End Writer.

(** X7.  [to_deb822] returns a paragraph exactly when the four sequence
    fields are lists, none of the optional fields it writes holds a number
    and the container accepts every string stored; in every other case it
    raises [TypeError] or [ValueError]. *)
Theorem to_deb822_returns_iff (setitem_raises : string → string → bool)
    (self : Deb822RepositoryInformation) :
  ((∃ out, to_deb822 setitem_raises self = Return out)
   ↔ (repo_types self ≠ None ∧ uris self ≠ None ∧ suites self ≠ None
      ∧ components self ≠ None
      ∧ forallb (λ v, negb (is_int v)) (written_optionals self) = true
      ∧ writes_accepted setitem_raises self = true))
  ∧ ((∃ out, to_deb822 setitem_raises self = Return out)
     ∨ to_deb822 setitem_raises self = Raise TypeError
     ∨ to_deb822 setitem_raises self = Raise ValueError).
Proof.
  split.
  - split.
    + intros [out H].
      destruct (to_deb822_Return_inv _ _ _ H)
        as (ts & us & ss & cs & -> & -> & -> & -> & Hint & Hacc & _).
      by repeat split.
    + intros (Hts & Hus & Hss & Hcs & Hint & Hacc).
      destruct (repo_types self) as [ts|] eqn:Ets; [|done].
      destruct (uris self) as [us|] eqn:Eus; [|done].
      destruct (suites self) as [ss|] eqn:Ess; [|done].
      destruct (components self) as [cs|] eqn:Ecs; [|done].
      eexists. by apply (to_deb822_returns _ self ts us ss cs).
  - destruct (to_deb822 setitem_raises self) as [out|e] eqn:H; [eauto|].
    right. destruct (to_deb822_raises_only _ _ _ H) as [->| ->]; auto.
Qed.

Lemma lookup_store_eq key x (container : gmap string pyval) :
  store key x container !! key
  = match x with Some v => Some v | None => container !! key end.
Proof. destruct x; simpl; [by rewrite lookup_insert_eq | reflexivity]. Qed.

Lemma lookup_store_ne key key' x (container : gmap string pyval) :
  key ≠ key' → store key x container !! key' = container !! key'.
Proof. intros Hne. destruct x; simpl; [by rewrite lookup_insert_ne | reflexivity]. Qed.

Lemma lookup_store_Some key key' x (container : gmap string pyval) v :
  store key x container !! key' = Some v →
  (key' = key ∧ x = Some v) ∨ container !! key' = Some v.
Proof.
  destruct x as [w|]; simpl; [|by right].
  intros [[-> ->]|[_ H]]%lookup_insert_Some; [by left | by right].
Qed.

Lemma written_value_str val v : written_value val = Some v → is_str v = true.
Proof. destruct val as [[]|]; simpl; intros H; by inversion H. Qed.

(** X8.  A paragraph [to_deb822] returns holds only fields of its fixed list
    of nineteen names, each with a string as value: neither [Languages] nor
    any field for [inrelease_path] is among them. *)
Theorem to_deb822_written (setitem_raises : string → string → bool)
    (self : Deb822RepositoryInformation)
    (out : gmap string pyval) (key : string) (v : pyval) :
  to_deb822 setitem_raises self = Return out → out !! key = Some v →
  key ∈ written_fields ∧ is_str v = true.
Proof.
  intros H Hkey.
  destruct (to_deb822_Return_inv _ _ _ H)
    as (ts & us & ss & cs & _ & _ & _ & _ & _ & _ & ->).
  unfold paragraph_of in Hkey.
  repeat (apply lookup_store_Some in Hkey as [[-> Hv]|Hkey];
          [ split;
            [ unfold written_fields;
              solve [repeat first [apply list_elem_of_here
                                  | apply list_elem_of_further]]
            | by apply written_value_str in Hv ] | ]).
  repeat (apply lookup_insert_Some in Hkey as [[<- <-]|[_ Hkey]];
          [ split;
            [ unfold written_fields;
              solve [repeat first [apply list_elem_of_here
                                  | apply list_elem_of_further]]
            | reflexivity ] | ]).
  by rewrite lookup_empty in Hkey.
Qed.

Lemma to_deb822_written_witness :
  "Components" ∈ written_fields ∧ is_str (PStr "main") = true.
Proof.
  apply (to_deb822_written accept_all languages_descriptor
           (list_to_map [("Types", PStr "deb");
                         ("URIs", PStr "http://example.com/debian");
                         ("Suites", PStr "stable");
                         ("Components", PStr "main")])
           "Components" (PStr "main")).
  - vm_compute. reflexivity.
  - vm_compute. reflexivity.
Defined.

Lemma lookup_written_match (w : option pyval) :
  match w with Some v => Some v | None => None end = w.
Proof. by destruct w. Qed.

Lemma written_value_string v : string_or_absent v = true → written_value v = v.
Proof. by destruct v as [[]|]. Qed.

Lemma string_or_absent_not_int v : string_or_absent v = true → negb (is_int v) = true.
Proof. by destruct v as [[]|]. Qed.

Lemma token_list_or_absent_not_int v :
  token_list_or_absent v = true → negb (is_int v) = true.
Proof. by destruct v as [[]|]. Qed.

(** Lookups in the paragraph [to_deb822] builds. *)
Ltac lookup_written :=
  repeat first
    [ rewrite lookup_store_eq
    | rewrite lookup_store_ne by done
    | rewrite lookup_insert_eq
    | rewrite lookup_insert_ne by done
    | rewrite lookup_empty
    | rewrite lookup_written_match ].

(** Writing and reading back a well-formed descriptor. *)
Lemma to_deb822_from_deb822 (setitem_raises : string → string → bool)
    (d : Deb822RepositoryInformation) :
  stanza_well_formed d = true →
  writes_accepted setitem_raises d = true →
  ∃ paragraph,
    to_deb822 setitem_raises d = Return paragraph
    ∧ from_deb822 paragraph
      = Return (mkDeb822 (repo_types d) (uris d) (suites d)
                  (without_languages d)).
Proof.
  destruct d as [rt us ss [cs en ar la ta pd bh ai aw ad tr sb cv vmin vmax cd dm ip]].
  unfold stanza_well_formed, without_languages.
  cbn [repo_types uris suites deb822_base components enabled architectures
       languages targets pdiffs by_hash allow_insecure allow_weak
       allow_downgrade_to_insecure trusted signed_by check_valid_until
       valid_until_min valid_until_max check_date date_max_future
       inrelease_path forallb].
  intros H Hacc. repeat (apply andb_prop in H as [H ?Hf]).
  repeat (apply andb_prop in Hf as [?Hs Hf]).
  destruct rt as [ts|]; [|discriminate].
  destruct us as [us|]; [|discriminate].
  destruct ss as [ss|]; [|discriminate].
  destruct cs as [cs|]; [|discriminate].
  cbn [token_list] in *.
  eexists. split.
  - apply (to_deb822_returns _ _ ts us ss cs); try reflexivity; [|exact Hacc].
    unfold written_optionals.
    cbn [deb822_base enabled architectures targets pdiffs by_hash
         allow_insecure allow_weak allow_downgrade_to_insecure trusted
         signed_by check_valid_until valid_until_min valid_until_max
         check_date date_max_future forallb].
    repeat first [ rewrite string_or_absent_not_int by assumption
                 | rewrite token_list_or_absent_not_int by assumption ].
    reflexivity.
  - clear Hacc. unfold paragraph_of.
    cbn [deb822_base enabled architectures targets pdiffs by_hash
         allow_insecure allow_weak allow_downgrade_to_insecure trusted
         signed_by check_valid_until valid_until_min valid_until_max
         check_date date_max_future].
    rewrite (written_value_string en), (written_value_string pd),
      (written_value_string bh), (written_value_string ai),
      (written_value_string aw), (written_value_string ad),
      (written_value_string tr), (written_value_string sb),
      (written_value_string cv), (written_value_string vmin),
      (written_value_string vmax), (written_value_string cd),
      (written_value_string dm) by assumption.
    unfold from_deb822, _get_values. lookup_written.
    repeat (rewrite bind_ret; cbv beta).
    rewrite !split_join by assumption.
    destruct ar as [[|la_ar| |]|]; try discriminate;
      destruct ta as [[|la_ta| |]|]; try discriminate;
      cbn [written_value token_list_or_absent] in *;
      lookup_written;
      rewrite ?split_join by assumption;
      repeat (rewrite bind_ret; cbv beta);
      lookup_written; reflexivity.
Qed.

(** X9.  For a well-formed DEB822 descriptor whose strings the container
    accepts, [to_deb822] returns a paragraph, and parsing that paragraph
    gives the descriptor back with [languages] (and [inrelease_path]) reset
    to [None]: every other field survives, [Languages] is lost. *)
Theorem deb822_round_trip (setitem_raises : string → string → bool)
    (d : Deb822RepositoryInformation) :
  stanza_well_formed d = true →
  writes_accepted setitem_raises d = true →
  ∃ paragraph,
    to_deb822 setitem_raises d = Return paragraph
    ∧ from_deb822 paragraph
      = Return (mkDeb822 (repo_types d) (uris d) (suites d)
                  (without_languages d)).
Proof. apply to_deb822_from_deb822. Qed.

Lemma deb822_round_trip_witness :
  ∃ paragraph,
    to_deb822 accept_all languages_descriptor = Return paragraph
    ∧ from_deb822 paragraph
      = Return (mkDeb822 (repo_types languages_descriptor)
                  (uris languages_descriptor) (suites languages_descriptor)
                  (without_languages languages_descriptor)).
Proof.
  apply (deb822_round_trip accept_all languages_descriptor); reflexivity.
Defined.

(** On a paragraph of strings every call of [_get_values] returns. *)
Lemma from_deb822_strings (value : gmap string pyval) :
  all_strings value →
  from_deb822 value
  = Return (mkDeb822 (field_tokens value "Types") (field_tokens value "URIs")
      (field_tokens value "Suites")
      (mkBase (field_tokens value "Components") (value !! "Enabled")
         (PList <$> field_tokens value "Architectures")
         (PList <$> field_tokens value "Languages")
         (PList <$> field_tokens value "Targets")
         (value !! "PDiffs") (value !! "By-Hash") (value !! "Allow-Insecure")
         (value !! "Allow-Weak") (value !! "Allow-Downgrade-To-Insecure")
         (value !! "Trusted") (value !! "Signed-By")
         (value !! "Check-Valid-Until") (value !! "Valid-Until-Min")
         (value !! "Valid-Until-Max") (value !! "Check-Date")
         (value !! "Date-Max-Future") None)).
Proof.
  intros Hall. unfold from_deb822.
  rewrite !_get_values_str_or_absent by (intros v Hv; exact (Hall _ _ Hv)).
  reflexivity.
Qed.

Lemma all_strings_lookup (value : gmap string pyval) key :
  all_strings value → string_or_absent (value !! key) = true.
Proof.
  intros Hall. destruct (value !! key) as [v|] eqn:E; [|reflexivity].
  specialize (Hall _ _ E). by destruct v.
Qed.

Lemma field_tokens_list (value : gmap string pyval) key :
  all_strings value → value !! key ≠ None →
  token_list (field_tokens value key) = true.
Proof.
  intros Hall Hkey. unfold field_tokens.
  destruct (value !! key) as [v|] eqn:E; [|done].
  specialize (Hall _ _ E). destruct v; try discriminate.
  apply split_tokens.
Qed.

Lemma field_tokens_list_or_absent (value : gmap string pyval) key :
  token_list_or_absent (PList <$> field_tokens value key) = true.
Proof.
  unfold field_tokens. destruct (value !! key) as [[]|]; try reflexivity.
  apply split_tokens.
Qed.

(** Parsing a full paragraph of strings. *)
Lemma from_deb822_full (value : gmap string pyval) :
  all_strings value →
  value !! "Types" ≠ None → value !! "URIs" ≠ None →
  value !! "Suites" ≠ None → value !! "Components" ≠ None →
  ∃ d, from_deb822 value = Return d
       ∧ stanza_well_formed d = true
       ∧ enabled d = value !! "Enabled"
       ∧ inrelease_path d = None.
Proof.
  intros Hall Hts Hus Hss Hcs. eexists.
  split; [by apply from_deb822_strings|].
  split; [|by split].
  unfold stanza_well_formed.
  cbn [repo_types uris suites deb822_base components enabled architectures
       targets pdiffs by_hash allow_insecure allow_weak
       allow_downgrade_to_insecure trusted signed_by check_valid_until
       valid_until_min valid_until_max check_date date_max_future forallb].
  rewrite !field_tokens_list by assumption.
  rewrite !field_tokens_list_or_absent.
  rewrite !all_strings_lookup by assumption.
  reflexivity.
Qed.

(** X10.  A paragraph of strings always parses, and the descriptor holds
    under every attribute what the paragraph holds under the field of that
    attribute: the whitespace-separated tokens of the string for the seven
    sequence fields, the string itself for [Enabled] and the eleven other
    fields, [None] for a field the paragraph lacks and for [inrelease_path].
    With [Types], [URIs], [Suites] and [Components] present the descriptor is
    well formed. *)
Theorem from_deb822_well_formed (value : gmap string pyval) :
  all_strings value →
  ∃ d, from_deb822 value = Return d
    ∧ d = mkDeb822 (field_tokens value "Types") (field_tokens value "URIs")
            (field_tokens value "Suites")
            (mkBase (field_tokens value "Components") (value !! "Enabled")
               (PList <$> field_tokens value "Architectures")
               (PList <$> field_tokens value "Languages")
               (PList <$> field_tokens value "Targets")
               (value !! "PDiffs") (value !! "By-Hash")
               (value !! "Allow-Insecure") (value !! "Allow-Weak")
               (value !! "Allow-Downgrade-To-Insecure")
               (value !! "Trusted") (value !! "Signed-By")
               (value !! "Check-Valid-Until") (value !! "Valid-Until-Min")
               (value !! "Valid-Until-Max") (value !! "Check-Date")
               (value !! "Date-Max-Future") None)
    ∧ (value !! "Types" ≠ None → value !! "URIs" ≠ None →
       value !! "Suites" ≠ None → value !! "Components" ≠ None →
       stanza_well_formed d = true).
Proof.
  intros Hall. eexists. split; [by apply from_deb822_strings|].
  split; [reflexivity|]. intros Hts Hus Hss Hcs.
  destruct (from_deb822_full value Hall Hts Hus Hss Hcs) as (d & Hd & Hwf & _).
  rewrite (from_deb822_strings value Hall) in Hd. by injection Hd as <-.
Qed.

(** A full paragraph of strings. *)
Lemma sample_paragraph_strings :
  all_strings (<["Components" := PStr "main contrib"]>
                 (<["Enabled" := PStr "no"]> no_components_paragraph)).
Proof.
  intros key v H.
  repeat (apply lookup_insert_Some in H as [[_ <-]|[_ H]]; [reflexivity|]).
  unfold no_components_paragraph in H. simpl in H.
  repeat (apply lookup_insert_Some in H as [[_ <-]|[_ H]]; [reflexivity|]).
  by rewrite lookup_empty in H.
Defined.

Lemma from_deb822_well_formed_witness :
  ∃ d, from_deb822 (<["Components" := PStr "main contrib"]>
                      (<["Enabled" := PStr "no"]> no_components_paragraph))
       = Return d
    ∧ d = mkDeb822 (Some ["deb"]) (Some ["http://example.com/debian"])
            (Some ["stable"])
            (no_options (Some ["main"; "contrib"]) (Some (PStr "no")))
    ∧ stanza_well_formed d = true.
Proof.
  destruct (from_deb822_well_formed
              (<["Components" := PStr "main contrib"]>
                 (<["Enabled" := PStr "no"]> no_components_paragraph))
              sample_paragraph_strings) as (d & Hd & Heq & Hwf).
  exists d. split; [exact Hd|]. split.
  - rewrite Heq. vm_compute. reflexivity.
  - apply Hwf; vm_compute; discriminate.
Defined.

(** [from_sources] with the list built so far. *)
Lemma from_sources_go_returns acc paragraphs out :
  from_sources_go acc paragraphs = Return out
  ↔ ∃ ds, Forall2 (λ p d, from_deb822 p = Return d) paragraphs ds
          ∧ out = acc ++ ds.
Proof.
  revert acc out. induction paragraphs as [|p ps IH]; intros acc out; simpl.
  - split.
    + intros H. injection H as <-. exists []. split; [constructor|].
      by rewrite app_nil_r.
    + intros (ds & Hds & ->). apply Forall2_nil_inv_l in Hds as ->.
      by rewrite app_nil_r.
  - split.
    + intros H. apply bind_Return in H as (d & Hd & H).
      apply IH in H as (ds & Hds & ->).
      exists (d :: ds). split; [by constructor | by rewrite <- app_assoc].
    + intros (ds & Hds & ->).
      apply Forall2_cons_inv_l in Hds as (d & ds' & Hd & Hds & ->).
      rewrite Hd, bind_ret. apply IH. exists ds'.
      split; [exact Hds | by rewrite <- app_assoc].
Qed.

(** X11.  [from_sources] returns a list exactly when [from_deb822] returns
    for every paragraph, and then it holds one descriptor per paragraph, in
    order: no paragraph is ever skipped. *)
Theorem from_sources_returns_iff
    (iter_paragraphs : list string → list (gmap string pyval))
    (value : list string) (out : list Deb822RepositoryInformation) :
  from_sources iter_paragraphs value = Return out
  ↔ Forall2 (λ p d, from_deb822 p = Return d) (iter_paragraphs value) out.
Proof.
  unfold from_sources. rewrite from_sources_go_returns. split.
  - by intros (ds & Hds & ->).
  - intros H. by exists out.
Qed.

Lemma from_sources_go_only_TypeError acc paragraphs e :
  from_sources_go acc paragraphs = Raise e → e = TypeError.
Proof.
  revert acc. induction paragraphs as [|p ps IH]; intros acc; simpl; [discriminate|].
  destruct (from_deb822 p) as [d|e0] eqn:Hp.
  - rewrite bind_ret. apply IH.
  - intros H. injection H as <-. unfold from_deb822 in Hp.
    repeat match type of Hp with
           | (_get_values ?c ?k ≫= _) = _ =>
               let E := fresh "E" in
               destruct (_get_values c k) eqn:E;
               [ rewrite bind_ret in Hp; cbv beta in Hp
               | apply _get_values_only_TypeError in E; subst;
                 simpl in Hp; by inversion Hp ]
           end.
    discriminate.
Qed.

(** X12.  When a paragraph makes [from_deb822] raise, [from_sources] raises
    [TypeError] for the whole input: the descriptors of the paragraphs that
    parsed are not returned. *)
Theorem from_sources_raises
    (iter_paragraphs : list string → list (gmap string pyval))
    (value : list string) (p : gmap string pyval) (e : exn) :
  p ∈ iter_paragraphs value → from_deb822 p = Raise e →
  from_sources iter_paragraphs value = Raise TypeError.
Proof.
  intros Hin Hp. unfold from_sources.
  destruct (from_sources_go [] (iter_paragraphs value)) as [out|e'] eqn:H.
  - apply from_sources_go_returns in H as (ds & Hds & _).
    apply list_elem_of_lookup in Hin as [i Hi].
    destruct (Forall2_lookup_l _ _ _ _ _ Hds Hi) as (d & _ & Hd).
    congruence.
  - by rewrite (from_sources_go_only_TypeError _ _ _ H).
Qed.

Lemma from_sources_raises_witness :
  from_sources (λ _, [no_components_paragraph; wrong_type_paragraph])
    ["Types: deb"] = Raise TypeError.
Proof.
  apply (from_sources_raises _ _ wrong_type_paragraph TypeError).
  - apply list_elem_of_further, list_elem_of_here.
  - vm_compute. reflexivity.
Defined.

(** * Further properties of the batch parser *)

Lemma from_lists_go_total urlparse_raises value acc :
  (∀ line, line ∈ value → Py.isspace line = false →
           ∃ r, from_line urlparse_raises line = Return r) →
  from_lists_go urlparse_raises acc value
  = Return (acc ++ omap (parsed urlparse_raises) value).
Proof.
  revert acc. induction value as [|line rest IH]; intros acc Hall; simpl.
  - by rewrite app_nil_r.
  - assert (Hrest : ∀ l, l ∈ rest → Py.isspace l = false →
                         ∃ r, from_line urlparse_raises l = Return r).
    { intros l Hl. apply Hall. by apply list_elem_of_further. }
    unfold parsed at 1. destruct (Py.isspace line) eqn:Hsp; [by apply IH|].
    destruct (Hall line (list_elem_of_here _ _) Hsp) as [r Hr].
    rewrite Hr, bind_ret. destruct r as [d|].
    + rewrite IH by exact Hrest. by rewrite <- app_assoc.
    + by apply IH.
Qed.

(** X13.  [from_lists] returns exactly when [from_line] returns on every
    line that is not whitespace only; the result then holds the descriptors
    of the lines that parsed, in the order of the input, and nothing for the
    whitespace-only and the rejected lines. *)
Theorem from_lists_returns_iff (urlparse_raises : string → bool)
    (value : list string) (out : list LineRepositoryInformation) :
  from_lists urlparse_raises value = Return out
  ↔ (∀ line, line ∈ value → Py.isspace line = false →
             ∃ r, from_line urlparse_raises line = Return r)
    ∧ out = omap (parsed urlparse_raises) value.
Proof.
  split.
  - intros H. split; [|by apply from_lists_returns].
    intros line Hin Hsp.
    destruct (from_line urlparse_raises line) as [r|e] eqn:Hline; [eauto|].
    destruct (from_lists_go_raises urlparse_raises value [] line e Hin Hsp Hline)
      as [e' He'].
    unfold from_lists in H. congruence.
  - intros [Hall ->]. unfold from_lists. by rewrite from_lists_go_total.
Qed.

Lemma from_lists_go_acc urlparse_raises value acc :
  from_lists_go urlparse_raises acc value
  = (r ← from_lists_go urlparse_raises [] value; Return (acc ++ r)).
Proof.
  revert acc. induction value as [|line rest IH]; intros acc; simpl.
  - by rewrite app_nil_r.
  - destruct (Py.isspace line); [apply IH|].
    destruct (from_line urlparse_raises line) as [[d|]|e]; simpl;
      [|apply IH|reflexivity].
    rewrite (IH (acc ++ [d])), (IH [d]).
    destruct (from_lists_go urlparse_raises [] rest); simpl; [|reflexivity].
    by rewrite <- app_assoc.
Qed.

(** X14.  Parsing two batches one after the other and appending the results
    is parsing their concatenation; an exception in the first batch is what
    the whole raises. *)
Theorem from_lists_app (urlparse_raises : string → bool) (a b : list string) :
  from_lists urlparse_raises (a ++ b)
  = (ra ← from_lists urlparse_raises a;
     rb ← from_lists urlparse_raises b;
     Return (ra ++ rb)).
Proof.
  unfold from_lists. generalize (@nil LineRepositoryInformation) at 1 3.
  induction a as [|line rest IH]; intros acc; simpl.
  - apply from_lists_go_acc.
  - destruct (Py.isspace line); [apply IH|].
    destruct (from_line urlparse_raises line) as [[d|]|e]; simpl;
      [apply IH | apply IH | reflexivity].
Qed.

(** * Further properties of the conversions *)

Lemma yield_each_Return_elem {A B : Type} (body : A → result (list B)) l out x :
  yield_each body l = Return out → x ∈ out →
  ∃ a ys, a ∈ l ∧ body a = Return ys ∧ x ∈ ys.
Proof.
  revert out. induction l as [|a l IH]; intros out; simpl.
  - intros H. injection H as <-. by intros ?%elem_of_nil.
  - intros H. apply bind_Return in H as (ys & Hys & H).
    apply bind_Return in H as (zs & Hzs & H). injection H as <-.
    intros [Hx|Hx]%elem_of_app.
    + exists a, ys. split; [apply list_elem_of_here | by split].
    + destruct (IH _ Hzs Hx) as (a' & ys' & Ha' & Hb & Hx').
      exists a', ys'. split; [by apply list_elem_of_further | by split].
Qed.

(** Every descriptor the conversion yields is [line_of] the source for one
    type, one URI and one suite of its lists. *)
Lemma from_deb822_information_elem (value : Deb822RepositoryInformation) out l :
  from_deb822_information value = Return out → l ∈ out →
  ∃ ts us ss t u s,
    repo_types value = Some ts ∧ uris value = Some us ∧ suites value = Some ss
    ∧ t ∈ ts ∧ u ∈ us ∧ s ∈ ss ∧ l = line_of value t u s.
Proof.
  unfold from_deb822_information, for_in. intros H Hl.
  destruct (repo_types value) as [ts|]; [|discriminate].
  destruct (yield_each_Return_elem _ _ _ _ H Hl) as (t & ys & Ht & Hys & Hl1).
  destruct (uris value) as [us|]; [|discriminate].
  destruct (yield_each_Return_elem _ _ _ _ Hys Hl1) as (u & zs & Hu & Hzs & Hl2).
  destruct (suites value) as [ss|]; [|discriminate].
  destruct (yield_each_Return_elem _ _ _ _ Hzs Hl2) as (s & ws & Hs & Hws & Hl3).
  injection Hws as <-. apply list_elem_of_singleton in Hl3.
  exists ts, us, ss, t, u, s. by repeat split.
Qed.

Lemma yield_each_nil_body {A B : Type} (body : A → result (list B)) l :
  (∀ a, body a = Return []) → yield_each body l = Return [].
Proof.
  intros Hbody. induction l as [|a l IH]; [reflexivity|].
  simpl. by rewrite Hbody, bind_ret, IH.
Qed.

(** X15.  The loops of [from_deb822_information] only touch a field once
    they reach it: an empty list of types yields nothing whatever [uris] and
    [suites] hold, an empty list of URIs yields nothing whatever [suites]
    holds, and a field that is [None] raises [TypeError] only if the loops
    around it have something to iterate over. *)
Theorem from_deb822_information_lazy (value : Deb822RepositoryInformation) :
  (repo_types value = None → from_deb822_information value = Raise TypeError)
  ∧ (repo_types value = Some [] → from_deb822_information value = Return [])
  ∧ (∀ t ts, repo_types value = Some (t :: ts) →
       (uris value = None → from_deb822_information value = Raise TypeError)
       ∧ (uris value = Some [] → from_deb822_information value = Return [])
       ∧ (∀ u us, uris value = Some (u :: us) → suites value = None →
            from_deb822_information value = Raise TypeError)).
Proof.
  unfold from_deb822_information, for_in.
  split; [by intros ->|]. split; [by intros ->|].
  intros t ts ->. split; [by intros ->|]. split.
  - intros ->. by apply yield_each_nil_body.
  - intros u us -> ->. reflexivity.
Qed.

(** A descriptor with no types and no list of URIs, and one with a type but
    no list of suites. *)
Lemma from_deb822_information_lazy_witness :
  from_deb822_information
    (mkDeb822 (Some []) None None (no_options (Some ["main"]) None))
  = Return []
  ∧ from_deb822_information
      (mkDeb822 (Some ["deb"]) (Some ["http://example.com/debian"]) None
         (no_options (Some ["main"]) None))
    = Raise TypeError.
Proof.
  split.
  - apply from_deb822_information_lazy. reflexivity.
  - apply (proj2 (proj2 (proj2 (proj2 (from_deb822_information_lazy
             (mkDeb822 (Some ["deb"]) (Some ["http://example.com/debian"]) None
                (no_options (Some ["main"]) None))))
                            "deb" [] eq_refl))
             "http://example.com/debian" []); reflexivity.
Defined.

(** X16.  A line descriptor converted to a DEB822 descriptor and back comes
    out as one line descriptor with the same type, URI, suite, components,
    [enabled] and options; only [inrelease_path] is reset, so a descriptor
    without it comes back unchanged. *)
Theorem line_stanza_line (l : LineRepositoryInformation) :
  from_deb822_information (from_line_information l)
  = Return [mkLine (repo_type l) (uri l) (suite l) (without_inrelease_path l)]
  ∧ (inrelease_path l = None →
     from_deb822_information (from_line_information l) = Return [l]).
Proof.
  split; [reflexivity|].
  destruct l as [t u s [cs en ar la ta pd bh ai aw ad tr sb cv vmin vmax cd dm ip]].
  simpl. by intros ->.
Qed.

Lemma line_stanza_line_witness :
  from_deb822_information (from_line_information by_hash_entry)
  = Return [mkLine (repo_type by_hash_entry) (uri by_hash_entry)
              (suite by_hash_entry) (without_inrelease_path by_hash_entry)]
  ∧ (inrelease_path by_hash_entry = None →
     from_deb822_information (from_line_information by_hash_entry)
     = Return [by_hash_entry]).
Proof. apply line_stanza_line. Defined.

(** * From a paragraph to lines of text *)

Lemma options_are_text_Forall options :
  Forall (λ kv : string * pyval, is_text kv.2 = true) options →
  options_are_text options = true.
Proof.
  induction 1 as [|[k v] options Hv _ IH]; [reflexivity|].
  simpl in *. by rewrite Hv.
Qed.

Lemma string_or_absent_text (o : option pyval) v :
  string_or_absent o = true → o = Some v → is_text v = true.
Proof. intros H ->. by destruct v. Qed.

Lemma field_tokens_text (value : gmap string pyval) key v :
  PList <$> field_tokens value key = Some v → is_text v = true.
Proof.
  unfold field_tokens. destruct (value !! key) as [[]|]; simpl; intros H;
    by inversion H.
Qed.

Lemma field_tokens_tokens (value : gmap string pyval) key l :
  field_tokens value key = Some l → all_tokens l = true.
Proof.
  unfold field_tokens. destruct (value !! key) as [[]|]; try discriminate.
  intros H. injection H as <-. apply split_tokens.
Qed.

Lemma all_tokens_elem l x : all_tokens l = true → x ∈ l → is_token x = true.
Proof.
  induction l as [|y l IH]; [by intros _ ?%elem_of_nil|].
  simpl. intros [Hy Hl]%andb_prop [->|Hx]%elem_of_cons; [exact Hy | by apply IH].
Qed.

(** X17.  A paragraph of strings with a [Components] field, parsed and
    converted to line descriptors: each of them is formatted without an
    exception, as the prefix, the type (a token of [Types]), the options
    block, and URI, suite and components.  The prefix is ['# '] exactly when
    the paragraph has no [Enabled] field or an empty one; any other value,
    [no] included, has a true truth value and gives no prefix.  So, for a
    type that does not itself begin with ['#'], the line starts with ['# ']
    exactly when [Enabled] is absent or empty. *)
Theorem paragraph_lines_prefix (value : gmap string pyval)
    (d : Deb822RepositoryInformation)
    (ls : list LineRepositoryInformation) (l : LineRepositoryInformation) :
  all_strings value → value !! "Components" ≠ None →
  from_deb822 value = Return d →
  from_deb822_information d = Return ls → l ∈ ls →
  ∃ block comps line,
    components l = Some comps
    ∧ _format_options l = Return block
    ∧ is_token (repo_type l) = true
    ∧ to_line l = Return line
    ∧ line = (if truthy (value !! "Enabled") then "" else "# ")
             +:+ repo_type l +:+ block +:+ uri l +:+ " " +:+ suite l +:+ " "
             +:+ Py.join " " comps
    ∧ (truthy (value !! "Enabled") = false
       ↔ value !! "Enabled" = None ∨ value !! "Enabled" = Some (PStr ""))
    ∧ (Py.startswith "#" (repo_type l) = false →
       (starts_with_hash_space line = true
        ↔ value !! "Enabled" = None ∨ value !! "Enabled" = Some (PStr ""))).
Proof.
  intros Hall Hcs Hd Hls Hl.
  rewrite (from_deb822_strings value Hall) in Hd. injection Hd as <-.
  destruct (from_deb822_information_elem _ _ _ Hls Hl)
    as (ts & us & ss & t & u & s & Hts & _ & _ & Ht & _ & _ & ->).
  cbn [repo_types] in Hts.
  pose proof (all_tokens_elem _ _ (field_tokens_tokens _ _ _ Hts) Ht) as Htok.
  pose proof (field_tokens_list value "Components" Hall Hcs) as Hcomps.
  destruct (field_tokens value "Components") as [comps|] eqn:Ecomps;
    [|discriminate].
  assert (Htext : options_are_text
            (set_options (instance_dict (line_of
               (mkDeb822 (field_tokens value "Types") (field_tokens value "URIs")
                  (field_tokens value "Suites")
                  (mkBase (Some comps) (value !! "Enabled")
                     (PList <$> field_tokens value "Architectures")
                     (PList <$> field_tokens value "Languages")
                     (PList <$> field_tokens value "Targets")
                     (value !! "PDiffs") (value !! "By-Hash")
                     (value !! "Allow-Insecure") (value !! "Allow-Weak")
                     (value !! "Allow-Downgrade-To-Insecure")
                     (value !! "Trusted") (value !! "Signed-By")
                     (value !! "Check-Valid-Until") (value !! "Valid-Until-Min")
                     (value !! "Valid-Until-Max") (value !! "Check-Date")
                     (value !! "Date-Max-Future") None)) t u s))) = true).
  { apply options_are_text_Forall.
    apply (set_options_Forall (λ v, is_text v = true)).
    unfold instance_dict, line_of.
    cbn [repo_type uri suite line_base deb822_base components enabled
         architectures languages targets pdiffs by_hash allow_insecure
         allow_weak allow_downgrade_to_insecure trusted signed_by
         check_valid_until valid_until_min valid_until_max check_date
         date_max_future inrelease_path].
    repeat apply Forall_cons_2; try apply Forall_nil_2;
      first [ left; unfold not_an_option; cbn [fst];
              solve [repeat first [apply list_elem_of_here
                                  | apply list_elem_of_further]]
            | right; cbn [snd]; intros v Hv;
              first [ by apply field_tokens_text in Hv
                    | by apply (string_or_absent_text _ _
                                  (all_strings_lookup value _ Hall) Hv)
                    | discriminate ] ]. }
  match type of Htext with
  | options_are_text (set_options (instance_dict ?x)) = _ =>
      destruct (proj2 (to_line_cases x) comps eq_refl Htext)
        as (block & Hblock & Hline)
  end.
  assert (Hempty : truthy (value !! "Enabled") = false
                   ↔ value !! "Enabled" = None
                     ∨ value !! "Enabled" = Some (PStr "")).
  { pose proof (all_strings_lookup value "Enabled" Hall) as Hen.
    destruct (value !! "Enabled") as [[[|c en]| | |]|]; try discriminate; simpl;
      split; auto; try discriminate; intros [H|H]; discriminate. }
  exists block, comps. eexists.
  split; [reflexivity|]. split; [exact Hblock|]. split; [exact Htok|].
  split; [exact Hline|].
  cbn [line_of line_base enabled repo_type uri suite deb822_base].
  split; [by destruct (truthy (value !! "Enabled"))|].
  split; [exact Hempty|].
  intros Hhash. rewrite <- Hempty.
  destruct (truthy (value !! "Enabled")); cbn [negb]; [|by split].
  destruct t as [|a t']; [discriminate|]. simpl in Hhash.
  rewrite PyFacts.append_nil, PyFacts.append_cons.
  unfold starts_with_hash_space. rewrite Hhash.
  split; [|discriminate]. by destruct (t' +:+ _).
Qed.

(** The paragraph with [Enabled: no], its descriptor and its one line. *)
Lemma paragraph_lines_prefix_witness :
  ∃ block comps line,
    components (mkLine "deb" "http://example.com/debian" "stable"
                  (no_options (Some ["main"; "contrib"]) (Some (PStr "no"))))
    = Some comps
    ∧ _format_options (mkLine "deb" "http://example.com/debian" "stable"
                         (no_options (Some ["main"; "contrib"])
                            (Some (PStr "no"))))
      = Return block
    ∧ is_token "deb" = true
    ∧ to_line (mkLine "deb" "http://example.com/debian" "stable"
                 (no_options (Some ["main"; "contrib"]) (Some (PStr "no"))))
      = Return line
    ∧ line = (if truthy ((<["Components" := PStr "main contrib"]>
                            (<["Enabled" := PStr "no"]> no_components_paragraph))
                         !! "Enabled")
              then "" else "# ")
             +:+ "deb" +:+ block +:+ "http://example.com/debian" +:+ " "
             +:+ "stable" +:+ " " +:+ Py.join " " comps
    ∧ (truthy ((<["Components" := PStr "main contrib"]>
                  (<["Enabled" := PStr "no"]> no_components_paragraph))
               !! "Enabled") = false
       ↔ (<["Components" := PStr "main contrib"]>
            (<["Enabled" := PStr "no"]> no_components_paragraph)) !! "Enabled"
         = None
         ∨ (<["Components" := PStr "main contrib"]>
              (<["Enabled" := PStr "no"]> no_components_paragraph)) !! "Enabled"
           = Some (PStr ""))
    ∧ (Py.startswith "#" "deb" = false →
       (starts_with_hash_space line = true
        ↔ (<["Components" := PStr "main contrib"]>
             (<["Enabled" := PStr "no"]> no_components_paragraph)) !! "Enabled"
          = None
          ∨ (<["Components" := PStr "main contrib"]>
               (<["Enabled" := PStr "no"]> no_components_paragraph)) !! "Enabled"
            = Some (PStr ""))).
Proof.
  apply (paragraph_lines_prefix
           (<["Components" := PStr "main contrib"]>
              (<["Enabled" := PStr "no"]> no_components_paragraph))
           (mkDeb822 (Some ["deb"]) (Some ["http://example.com/debian"])
              (Some ["stable"])
              (no_options (Some ["main"; "contrib"]) (Some (PStr "no"))))
           [mkLine "deb" "http://example.com/debian" "stable"
              (no_options (Some ["main"; "contrib"]) (Some (PStr "no")))]).
  - exact sample_paragraph_strings.
  - vm_compute. discriminate.
  - vm_compute. reflexivity.
  - reflexivity.
  - apply list_elem_of_here.
Defined.

(** X18.  A line descriptor with no option set is written with the type and
    the URI glued together, and the line, having no options block, is never
    parsed back to a descriptor (for fields without ['[']). *)
Theorem to_line_without_options_unparsable
    (self : LineRepositoryInformation) (comps : list string) :
  set_options (instance_dict self) = [] →
  components self = Some comps →
  contains "[" (repo_type self) = false → contains "[" (uri self) = false →
  contains "[" (suite self) = false → contains "[" (Py.join " " comps) = false →
  ∃ out,
    to_line self = Return out
    ∧ out = (if negb (truthy (enabled self)) then "# " else "")
            +:+ repo_type self +:+ uri self +:+ " " +:+ suite self +:+ " "
            +:+ Py.join " " comps
    ∧ ∀ urlparse_raises,
        from_line urlparse_raises out = Return None
        ∨ from_line urlparse_raises out = Raise AttributeError.
Proof.
  intros Hopts Hc Ht Hu Hs Hj. eexists. split; [|split; [reflexivity|]].
  - unfold to_line, _format_options. rewrite Hc, Hopts, bind_ret. cbv zeta.
    change (length [] <=? 0)%nat with true. cbv iota.
    rewrite bind_ret. reflexivity.
  - intros urlparse_raises. apply from_line_without_block, search_no_bracket.
    rewrite !contains_append, Ht, Hu, Hs, Hj.
    by destruct (negb (truthy (enabled self))).
Qed.

Lemma to_line_without_options_unparsable_witness :
  ∃ out,
    to_line (mkLine "deb" "http://example.com/debian" "stable"
               (no_options (Some ["main"]) (Some (PBool true))))
    = Return out
    ∧ out = (if negb (truthy (Some (PBool true))) then "# " else "")
            +:+ "deb" +:+ "http://example.com/debian" +:+ " " +:+ "stable"
            +:+ " " +:+ Py.join " " ["main"]
    ∧ ∀ urlparse_raises,
        from_line urlparse_raises out = Return None
        ∨ from_line urlparse_raises out = Raise AttributeError.
Proof.
  apply (to_line_without_options_unparsable
           (mkLine "deb" "http://example.com/debian" "stable"
              (no_options (Some ["main"]) (Some (PBool true)))) ["main"]);
    reflexivity.
Defined.
